(** * D-MoneyCare: transaction risk scoring, risk profiling and alert policy

    A shallow embedding of
      - [AnomalyDetectionService]  (server/services/anomalyDetection.ts),
      - [RiskProfilingService]     (server/services/riskProfiling.ts),
      - the handlers of [POST /api/patients/:id/transactions] and of
        [GET /api/activity] (server/routes.ts),
      - the rows generated for demonstration (server/seedData.ts),
    followed by the properties checked against them.

    Modelling conventions.
      - A JavaScript number is a value of [num]: [NaN], the two infinities, or
        an exact rational.  Arithmetic on finite values is exact: the rounding
        of IEEE doubles is not modelled, and the sign of zero is not tracked
        (every zero divisor the code can build is a count or a sum started at
        [0], hence a positive zero).  The scores the code compares and stores
        are small integers.  The product of an integer in 0..100 with 1.1, 1.3
        or 1.5 lies either on a half, where the double is not below it and is
        rounded upwards too, or at least 1/10 away from one, so [Math.round]
        of it is the same integer for the doubles.  A weighted total or a
        percentage that falls on a half may round to the neighbouring integer
        with doubles; what is proved of them are bounds, monotonicity and
        nearness, which both satisfy.  A literal beyond the range of the
        doubles stays finite here.
      - A string is a [string] of bytes (UTF-8).  Case folding and white space
        are the ASCII ones.
      - A [Date] is valid and is its number of milliseconds in the server's
        local time, the zone being a fixed offset; [new Date()] and
        [Date.now()] are an explicit argument [now], and the values of
        [Math.random()] are explicit arguments too.
      - The store (server/storage.ts) hands each call to the database, which
        is not part of these files.  [Routes.postTransaction] is given what
        the reads answer and returns the writes the handler issues, in order,
        as they follow one another when none throws;
        [Request.postTransactionCaught] adds the catch branch, the database
        being a parameter that tells which writes it carries out.  A rejected
        request body is not modelled.
      - Where an exact ratio falls on a threshold of the code, or an exact
        product on an integer, the doubles may fall beside it: what is proved
        of such values holds on either side. *)

From Stdlib Require Import ZArith QArith Qround Lqa String Ascii List Lia.
From stdpp Require Import base strings gmap list sorting pretty.
Import ListNotations.

Local Open Scope string_scope.
Local Open Scope Z_scope.

(** ** JavaScript numbers *)

Module JsNum.

Inductive num : Type :=
| NaN
| PInf
| NInf
| Fin (q : Q).

Definition ofZ (z : Z) : num := Fin (inject_Z z).
Definition ofNat (n : nat) : num := ofZ (Z.of_nat n).

Definition infinity (neg : bool) : num := if neg then NInf else PInf.

(** An infinity of sign [neg] scaled by the finite [q]. *)
Definition scaleInf (neg : bool) (q : Q) : num :=
  match (q ?= 0)%Q with
  | Eq => NaN
  | Gt => infinity neg
  | Lt => infinity (negb neg)
  end.

Definition add (a b : num) : num :=
  match a, b with
  | NaN, _ | _, NaN => NaN
  | PInf, NInf | NInf, PInf => NaN
  | PInf, _ | _, PInf => PInf
  | NInf, _ | _, NInf => NInf
  | Fin x, Fin y => Fin (x + y)
  end.

Definition mul (a b : num) : num :=
  match a, b with
  | NaN, _ | _, NaN => NaN
  | Fin x, Fin y => Fin (x * y)
  | PInf, Fin q | Fin q, PInf => scaleInf false q
  | NInf, Fin q | Fin q, NInf => scaleInf true q
  | PInf, PInf | NInf, NInf => PInf
  | PInf, NInf | NInf, PInf => NInf
  end.

Definition div (a b : num) : num :=
  match a, b with
  | NaN, _ | _, NaN => NaN
  | Fin x, Fin y => if Qeq_bool y 0 then scaleInf false x else Fin (x / y)
  | Fin _, _ => Fin 0
  | PInf, Fin y => match (y ?= 0)%Q with Lt => NInf | _ => PInf end
  | NInf, Fin y => match (y ?= 0)%Q with Lt => PInf | _ => NInf end
  | _, _ => NaN
  end.

(** [a >= b] and [a > b]; every comparison with [NaN] is false. *)
Definition ge (a b : num) : bool :=
  match a, b with
  | NaN, _ | _, NaN => false
  | PInf, _ | _, NInf => true
  | NInf, _ | _, PInf => false
  | Fin x, Fin y => Qle_bool y x
  end.

Definition gt (a b : num) : bool :=
  match a, b with
  | NaN, _ | _, NaN => false
  | PInf, PInf | NInf, _ | Fin _, PInf => false
  | PInf, _ | Fin _, NInf => true
  | Fin x, Fin y => negb (Qle_bool x y)
  end.

(** [Math.min(a, b)] *)
Definition min (a b : num) : num :=
  match a, b with
  | NaN, _ | _, NaN => NaN
  | _, _ => if ge a b then b else a
  end.

(** [Math.round(a)]: the nearest integer, halves upwards. *)
Definition round (a : num) : num :=
  match a with
  | Fin q => Fin (inject_Z (Qfloor (q + (1 # 2))))
  | _ => a
  end.

(** Template-literal rendering of an integral number (of magnitude below
    10^21, from which on JavaScript switches to the exponent notation). *)
Definition toString (a : num) : string :=
  match a with
  | NaN => "NaN"
  | PInf => "Infinity"
  | NInf => "-Infinity"
  | Fin q => pretty (Qfloor q)
  end.

(** The value is a finite integer between [lo] and [hi]. *)
Definition intBetween (lo hi : Z) (a : num) : Prop :=
  exists z : Z, a = ofZ z /\ lo <= z <= hi.

End JsNum.

Import JsNum.

(** ** JavaScript strings *)

Module JsString.

(** The white space of ASCII: tab to carriage return, and the blank. *)
Definition isWhiteSpace (c : ascii) : bool :=
  let n := Z.of_nat (nat_of_ascii c) in
  ((9 <=? n) && (n <=? 13)) || (n =? 32).

Definition isDigit (c : ascii) : bool :=
  let n := Z.of_nat (nat_of_ascii c) in (48 <=? n) && (n <=? 57).

Definition digitValue (c : ascii) : Z := Z.of_nat (nat_of_ascii c) - 48.

Definition lowerChar (c : ascii) : ascii :=
  let n := nat_of_ascii c in
  if ((65 <=? n) && (n <=? 90))%nat then ascii_of_nat (n + 32) else c.

(** [s.toLowerCase()], for the letters A to Z; other cased letters are
    left as they are. *)
Fixpoint toLowerCase (s : string) : string :=
  match s with
  | EmptyString => EmptyString
  | String c r => String (lowerChar c) (toLowerCase r)
  end.

(** [s.includes(kw)] *)
Fixpoint includes (s kw : string) : bool :=
  String.prefix kw s ||
  match s with
  | EmptyString => false
  | String _ r => includes r kw
  end.

(** Truthiness of a string, and of a nullable string. *)
Definition truthy (s : string) : bool :=
  match s with EmptyString => false | _ => true end.

Definition truthyOpt (o : option string) : bool :=
  match o with Some s => truthy s | None => false end.

(** [o || dflt] on a nullable string. *)
Definition orElse (o : option string) (dflt : string) : string :=
  match o with
  | Some s => if truthy s then s else dflt
  | None => dflt
  end.

(** [s.split(/\s+/)]: [cur] is the token being read, [inSep] tells that the
    previous character was white space. *)
Fixpoint splitGo (s cur : string) (inSep : bool) : list string :=
  match s with
  | EmptyString => [cur]
  | String c r =>
      if isWhiteSpace c
      then (if inSep then splitGo r EmptyString true else cur :: splitGo r EmptyString true)
      else splitGo r (cur +:+ String c EmptyString) false
  end.

Definition splitWhiteSpace (s : string) : list string := splitGo s EmptyString false.

Fixpoint skipWhiteSpace (s : string) : string :=
  match s with
  | String c r => if isWhiteSpace c then skipWhiteSpace r else s
  | EmptyString => s
  end.

(** Reads a run of decimal digits: its value (after [acc]), its length, the rest. *)
Fixpoint readDigits (s : string) (acc : Z) (n : nat) : Z * nat * string :=
  match s with
  | String c r => if isDigit c then readDigits r (10 * acc + digitValue c) (S n) else (acc, n, s)
  | EmptyString => (acc, n, s)
  end.

(** The exponent part [e], [e+], [e-] followed by digits; 0 when there is none. *)
Definition readExponent (s : string) : Z :=
  match s with
  | String c r =>
      if (Ascii.eqb c "e" || Ascii.eqb c "E")%char then
        let '(neg, r') :=
          match r with
          | String "+" t => (false, t)
          | String "-" t => (true, t)
          | _ => (false, r)
          end in
        let '(v, n, _) := readDigits r' 0 0 in
        match n with
        | O => 0
        | S _ => if neg then - v else v
        end
      else 0
  | EmptyString => 0
  end.

(** [m * 10^e] as a rational. *)
Definition scale10 (m e : Z) : Q :=
  if 0 <=? e then inject_Z (m * 10 ^ e) else Qmake m (Z.to_pos (10 ^ (- e))).

(** [parseFloat(s)]: leading white space, a sign, then [Infinity] or the
    longest decimal literal; [NaN] when there is none.  The value is the
    exact one of the literal, neither rounded to a double nor turned into an
    infinity when it is beyond their range. *)
Definition parseFloat (s : string) : num :=
  let t := skipWhiteSpace s in
  let '(neg, u) :=
    match t with
    | String "+" r => (false, r)
    | String "-" r => (true, r)
    | _ => (false, t)
    end in
  if String.prefix "Infinity" u then infinity neg
  else
    let '(ip, ni, v) := readDigits u 0 0 in
    let '(m, nf, w) :=
      match v with
      | String "." r => readDigits r ip 0
      | _ => (ip, O, v)
      end in
    match (ni + nf)%nat with
    | O => NaN
    | S _ =>
        let q := scale10 m (readExponent w - Z.of_nat nf) in
        Fin (if neg then - q else q)
    end.

End JsString.

Import JsString.

(** ** Dates *)

Module JsDate.

Definition msPerHour : Z := 60 * 60 * 1000.
Definition msPerDay : Z := 24 * msPerHour.

(** [d.getHours()] *)
Definition getHours (d : Z) : Z := (d / msPerHour) mod 24.

(** The time of day, in milliseconds after midnight. *)
Definition msOfDay (d : Z) : Z := d mod msPerDay.

(** The date of day number [day] at [h]:[m] o'clock. *)
Definition atClock (day h m : Z) : Z := day * msPerDay + h * msPerHour + m * 60 * 1000.

End JsDate.

Import JsDate.

(** ** Rows of shared/schema.ts (the columns the services read) *)

Module Schema.

(** A transaction without its key and creation date: the candidate the
    scorer is given, and the columns the handler inserts. *)
Record TransactionData : Type := {
  patientId : Z;
  amount : string;
  type : string;
  location : option string;
  merchant : option string;
  description : option string;
  timestamp : Z;
  isAnomaly : option bool;
  riskScore : option Z
}.

Record Transaction : Type := {
  id : Z;
  data :> TransactionData;
  createdAt : option Z
}.

Record Patient : Type := {
  patientRowId : Z;
  name : string;
  age : Z;
  riskLevel : string;
  dementiaStage : option string;
  avgMonthlySpending : option string
}.

(** The settings argument of [shouldSendImmediateAlert]. *)
Record AlertSettings : Type := {
  threshold : string;
  immediateAlerts : bool
}.

Record InsertAlert : Type := {
  alertPatientId : Z;
  transactionId : option Z;
  alertType : string;
  title : string;
  message : string;
  severity : string
}.

Record InsertRiskAssessment : Type := {
  assessedPatientId : Z;
  frequencyScore : num;
  amountScore : num;
  timingScore : num;
  locationScore : num;
  totalScore : num
}.

End Schema.

Import Schema.

(** Labels of the three risk tiers and of the alert types. *)
Definition HIGH_RISK : string := "고위험".
Definition MEDIUM_RISK : string := "중위험".
Definition LOW_RISK : string := "저위험".
Definition URGENT : string := "긴급".

(** [new Set(xs).size] for strings. *)
Definition distinctCount (xs : list string) : nat :=
  size (list_to_set xs : gset string).

(** [xs.filter(Boolean)] on nullable strings. *)
Definition filterTruthy (xs : list (option string)) : list string :=
  omap (fun o => match o with Some s => if truthy s then Some s else None | None => None end) xs.

(** [xs.reduce((a, b) => a + b, 0)] *)
Definition sum (xs : list num) : num := fold_left add xs (ofZ 0).

(** ** server/services/anomalyDetection.ts *)

Module AnomalyDetectionService.

Record AnomalyDetectionResult : Type := {
  resIsAnomaly : bool;
  resRiskScore : Z;
  reasons : list string
}.

(** The result of each partial analysis: [{ score, reasons }]. *)
Definition Partial : Type := (Z * list string)%type.

Definition HIGH_RISK_KEYWORDS : list string :=
  ["선물"; "송금"; "투자"; "대출"; "보험가입"; "펀드"; "주식"].

Definition analyzeAmount (amount : string) (avgSpending : num)
    (recentTransactions : list Transaction) : Partial :=
  let transactionAmount := parseFloat amount in
  let p1 : Partial :=
    if gt avgSpending (ofZ 0) then
      let ratio := div transactionAmount avgSpending in
      if gt ratio (ofZ 3) then
        (40, ["평균 지출 대비 " +:+ toString (round ratio) +:+ "배 초과"])
      else if gt ratio (ofZ 2) then
        (25, ["평균 지출 대비 " +:+ toString (round ratio) +:+ "배 초과"])
      else (0, [])
    else (0, []) in
  let p2 : Partial :=
    match recentTransactions with
    | [] => (0, [])
    | _ :: _ =>
        let recentAmounts := map (fun t : Transaction => parseFloat (Schema.amount t)) recentTransactions in
        let recentAvg := div (sum recentAmounts) (ofNat (length recentAmounts)) in
        let ratio := div transactionAmount recentAvg in
        if gt ratio (ofZ 5) then
          (30, ["최근 거래 대비 " +:+ toString (round ratio) +:+ "배 초과"])
        else if gt ratio (ofZ 3) then
          (20, ["최근 거래 대비 " +:+ toString (round ratio) +:+ "배 초과"])
        else (0, [])
    end in
  let p3 : Partial :=
    if ge transactionAmount (ofZ 1000000) then (35, ["100만원 이상 대용량 거래"])
    else if ge transactionAmount (ofZ 500000) then (20, ["50만원 이상 고액 거래"])
    else (0, []) in
  (p1.1 + p2.1 + p3.1, (p1.2 ++ p2.2 ++ p3.2)%list).

Definition analyzeFrequency (transaction : TransactionData)
    (recentTransactions : list Transaction) : Partial :=
  let last24Hours := timestamp transaction - 24 * msPerHour in
  let recentCount :=
    length (List.filter (fun t : Transaction => last24Hours <=? timestamp t) recentTransactions) in
  let p1 : Partial :=
    if (5 <=? recentCount)%nat then (30, ["24시간 내 " +:+ pretty recentCount +:+ "번의 거래"])
    else if (3 <=? recentCount)%nat then (15, ["24시간 내 " +:+ pretty recentCount +:+ "번의 거래"])
    else (0, []) in
  let p2 : Partial :=
    if String.eqb (type transaction) "ATM" then
      let atmCount :=
        length (List.filter (fun t : Transaction =>
                          String.eqb (type t) "ATM" && (last24Hours <=? timestamp t))
                       recentTransactions) in
      if (3 <=? atmCount)%nat then (25, ["하루 내 " +:+ pretty atmCount +:+ "번의 ATM 출금"])
      else (0, [])
    else (0, []) in
  (p1.1 + p2.1, (p1.2 ++ p2.2)%list).

Definition analyzeTime (timestamp : Z) : Partial :=
  let hour := getHours timestamp in
  if (23 <=? hour) || (hour <=? 6) then (20, ["비정상적인 시간대 거래 (심야/새벽)"])
  else (0, []).

Definition analyzeMerchant (merchant description : option string) : Partial :=
  let text := toLowerCase (orElse merchant EmptyString +:+ " " +:+ orElse description EmptyString) in
  let p1 : Partial :=
    match find (fun keyword => includes text keyword) HIGH_RISK_KEYWORDS with
    | Some keyword => (25, ["위험 키워드 감지: " +:+ keyword])
    | None => (0, [])
    end in
  let p2 : Partial :=
    if includes text "온라인" || includes text "인터넷" || includes text "전화"
    then (15, ["온라인/전화 거래"]) else (0, []) in
  let p3 : Partial :=
    if truthyOpt merchant &&
       (includes (orElse merchant EmptyString) "알수없음" || includes (orElse merchant EmptyString) "미확인")
    then (20, ["알 수 없는 가맹점"]) else (0, []) in
  (p1.1 + p2.1 + p3.1, (p1.2 ++ p2.2 ++ p3.2)%list).

Definition isSimilarLocation (loc1 loc2 : string) : bool :=
  let words1 := splitWhiteSpace (toLowerCase loc1) in
  let words2 := splitWhiteSpace (toLowerCase loc2) in
  existsb (fun word => existsb (String.eqb word) words2) words1.

Definition analyzeLocation (location : option string)
    (recentTransactions : list Transaction) : Partial :=
  match location with
  | None => (0, [])
  | Some loc =>
      if negb (truthy loc) then (0, [])
      else
        let recentLocations :=
          take 10 (filterTruthy (map (fun t : Transaction => Schema.location t) recentTransactions)) in
        match recentLocations with
        | [] => (0, [])
        | _ :: _ =>
            let isUnusualLocation := negb (existsb (isSimilarLocation loc) recentLocations) in
            if isUnusualLocation then (15, ["비정상적인 거래 위치"]) else (0, [])
        end
  end.

Definition detectAnomaly (transaction : TransactionData)
    (recentTransactions : list Transaction) (patientAvgSpending : num)
    : AnomalyDetectionResult :=
  let amountRisk := analyzeAmount (amount transaction) patientAvgSpending recentTransactions in
  let frequencyRisk := analyzeFrequency transaction recentTransactions in
  let timeRisk := analyzeTime (timestamp transaction) in
  let merchantRisk := analyzeMerchant (merchant transaction) (description transaction) in
  let locationRisk := analyzeLocation (Schema.location transaction) recentTransactions in
  let total := amountRisk.1 + frequencyRisk.1 + timeRisk.1 + merchantRisk.1 + locationRisk.1 in
  let riskScore := Z.min total 100 in
  {| resIsAnomaly := 30 <=? riskScore;
     resRiskScore := riskScore;
     reasons := List.filter (fun r => truthy r)
                  (amountRisk.2 ++ frequencyRisk.2 ++ timeRisk.2 ++ merchantRisk.2 ++ locationRisk.2)%list |}.

Record RiskFactors : Type := {
  rfFrequencyScore : num;
  rfAmountScore : num;
  rfTimingScore : num;
  rfLocationScore : num
}.

Definition isNightHour (hour : Z) : bool := (23 <=? hour) || (hour <=? 6).

Definition calculateRiskFactors (now : Z) (patientId : Z)
    (recentTransactions : list Transaction) : RiskFactors :=
  let last7Days := now - 7 * 24 * 60 * 60 * 1000 in
  let weekTransactions :=
    List.filter (fun t : Transaction => last7Days <=? timestamp t) recentTransactions in
  let dailyTransactionCount := div (ofNat (length weekTransactions)) (ofZ 7) in
  let frequencyScore := min (mul dailyTransactionCount (ofZ 20)) (ofZ 100) in
  let amounts := map (fun t : Transaction => parseFloat (Schema.amount t)) weekTransactions in
  let avgAmount :=
    if (0 <? length amounts)%nat then div (sum amounts) (ofNat (length amounts)) else ofZ 0 in
  let amountScore := min (div avgAmount (ofZ 10000)) (ofZ 100) in
  let nightTransactions :=
    List.filter (fun t : Transaction => isNightHour (getHours (timestamp t))) weekTransactions in
  let timingScore :=
    mul (div (ofNat (length nightTransactions)) (ofNat (length weekTransactions))) (ofZ 100) in
  let uniqueLocations :=
    distinctCount (filterTruthy (map (fun t : Transaction => Schema.location t) weekTransactions)) in
  let locationScore := min (mul (ofNat uniqueLocations) (ofZ 15)) (ofZ 100) in
  {| rfFrequencyScore := round frequencyScore;
     rfAmountScore := round amountScore;
     rfTimingScore := round timingScore;
     rfLocationScore := round locationScore |}.

End AnomalyDetectionService.

(** ** server/services/riskProfiling.ts *)

Module RiskProfilingService.

Record Factors : Type := {
  frequency : num;
  amount : num;
  timing : num;
  location : num
}.

Record RiskProfile : Type := {
  riskLevel : string;
  totalScore : num;
  factors : Factors;
  recommendations : list string
}.

Definition MILD : string := "경도".
Definition MODERATE : string := "중등도".
Definition SEVERE : string := "중증".

Definition getDementiaRiskMultiplier (dementiaStage : option string) : num :=
  if negb (truthyOpt dementiaStage) then ofZ 1
  else
    let stage := toLowerCase (orElse dementiaStage EmptyString) in
    if String.eqb stage MILD then Fin (11 # 10)
    else if String.eqb stage MODERATE then Fin (13 # 10)
    else if String.eqb stage SEVERE then Fin (15 # 10)
    else ofZ 1.

(** The transactions of the trailing [days] days. *)
Definition since (now days : Z) (recentTransactions : list Transaction) : list Transaction :=
  List.filter (fun t : Transaction => now - days * 24 * 60 * 60 * 1000 <=? timestamp t)
         recentTransactions.

Definition frequencyBase (weekTransactions : list Transaction) : num :=
  let dailyTransactionCount := div (ofNat (length weekTransactions)) (ofZ 7) in
  if gt dailyTransactionCount (ofZ 5) then ofZ 85
  else if gt dailyTransactionCount (ofZ 3) then ofZ 60
  else if gt dailyTransactionCount (ofZ 2) then ofZ 35
  else ofZ 15.

Definition amountBase (patient : Patient) (weekTransactions : list Transaction) : num :=
  let amounts := map (fun t : Transaction => parseFloat (Schema.amount t)) weekTransactions in
  let totalWeeklyAmount := sum amounts in
  let avgMonthlySpending := parseFloat (orElse (Schema.avgMonthlySpending patient) "0") in
  if gt avgMonthlySpending (ofZ 0) then
    let weeklyRatio := div (mul totalWeeklyAmount (ofZ 4)) avgMonthlySpending in
    if gt weeklyRatio (ofZ 3) then ofZ 85
    else if gt weeklyRatio (ofZ 2) then ofZ 60
    else if gt weeklyRatio (Fin (3 # 2)) then ofZ 40
    else ofZ 20
  else
    if gt totalWeeklyAmount (ofZ 1000000) then ofZ 80
    else if gt totalWeeklyAmount (ofZ 500000) then ofZ 50
    else ofZ 20.

Definition isNightHour (hour : Z) : bool := (22 <=? hour) || (hour <=? 7).

Definition nightTransactions (weekTransactions : list Transaction) : list Transaction :=
  List.filter (fun t : Transaction => isNightHour (getHours (timestamp t))) weekTransactions.

Definition timingBase (weekTransactions : list Transaction) : num :=
  if (0 <? length weekTransactions)%nat then
    round (mul (div (ofNat (length (nightTransactions weekTransactions)))
                    (ofNat (length weekTransactions)))
               (ofZ 100))
  else ofZ 0.

Definition locationBase (weekTransactions : list Transaction) : num :=
  let uniqueLocations :=
    distinctCount (filterTruthy (map (fun t : Transaction => Schema.location t) weekTransactions)) in
  if (10 <? uniqueLocations)%nat then ofZ 80
  else if (7 <? uniqueLocations)%nat then ofZ 60
  else if (5 <? uniqueLocations)%nat then ofZ 40
  else ofZ 20.

(** [Math.min(Math.round(score * dementiaMultiplier), 100)] *)
Definition adjust (score dementiaMultiplier : num) : num :=
  min (round (mul score dementiaMultiplier)) (ofZ 100).

Definition calculateRiskFactors (now : Z) (patient : Patient)
    (recentTransactions : list Transaction) : Factors :=
  let monthTransactions := since now 30 recentTransactions in
  let weekTransactions := since now 7 recentTransactions in
  let frequencyScore := frequencyBase weekTransactions in
  let amountScore := amountBase patient weekTransactions in
  let timingScore := timingBase weekTransactions in
  let locationScore := locationBase weekTransactions in
  let dementiaMultiplier := getDementiaRiskMultiplier (dementiaStage patient) in
  {| frequency := adjust frequencyScore dementiaMultiplier;
     amount := adjust amountScore dementiaMultiplier;
     timing := adjust timingScore dementiaMultiplier;
     location := adjust locationScore dementiaMultiplier |}.

Definition calculateTotalScore (f : Factors) : num :=
  round (add (add (add (mul (frequency f) (Fin (3 # 10)))
                       (mul (amount f) (Fin (4 # 10))))
                  (mul (timing f) (Fin (15 # 100))))
             (mul (location f) (Fin (15 # 100)))).

Definition determineRiskLevel (totalScore : num) : string :=
  if ge totalScore (ofZ 70) then HIGH_RISK
  else if ge totalScore (ofZ 40) then MEDIUM_RISK
  else LOW_RISK.

Definition generateRecommendations (riskLevel : string) (f : Factors)
    (recentTransactions : list Transaction) : list string :=
  let tier :=
   (if String.eqb riskLevel HIGH_RISK then
      ["즉시 환자와 연락하여 최근 거래 내역을 확인하세요";
       "필요시 금융기관에 연락하여 거래 제한을 요청하세요"]
      ++ (if gt (amount f) (ofZ 70)
          then ["대용량 거래가 감지되었습니다. 사기 피해 가능성을 확인하세요"] else [])
      ++ (if gt (frequency f) (ofZ 70)
          then ["비정상적으로 잦은 거래가 발생하고 있습니다"] else [])
    else if String.eqb riskLevel MEDIUM_RISK then
      ["환자의 최근 활동을 주의 깊게 모니터링하세요";
       "정기적으로 거래 내역을 확인해주세요"]
      ++ (if gt (timing f) (ofZ 50)
          then ["심야 시간대 거래가 증가했습니다. 주의가 필요합니다"] else [])
    else
      ["현재 안정적인 거래 패턴을 보이고 있습니다";
       "주간 모니터링을 계속 유지하세요"])%list in
  let atmTransactions :=
    List.filter (fun t : Transaction => String.eqb (type t) "ATM") recentTransactions in
  let anomalies :=
    List.filter (fun t : Transaction => match isAnomaly t with Some b => b | None => false end)
           recentTransactions in
  (tier
   ++ (if (3 <? length atmTransactions)%nat
       then ["ATM 출금 빈도가 높습니다. 현금 사용 패턴을 확인하세요"] else [])
   ++ (if (0 <? length anomalies)%nat
       then [pretty (length anomalies) +:+ "건의 이상 거래가 감지되었습니다"] else []))%list.

Definition assessRisk (now : Z) (patient : Patient)
    (recentTransactions : list Transaction) : RiskProfile :=
  let factors := calculateRiskFactors now patient recentTransactions in
  let totalScore := calculateTotalScore factors in
  let riskLevel := determineRiskLevel totalScore in
  let recommendations := generateRecommendations riskLevel factors recentTransactions in
  {| riskLevel := riskLevel;
     totalScore := totalScore;
     factors := factors;
     recommendations := recommendations |}.

Definition getAlertPriority (riskLevel : string) : string :=
  if String.eqb riskLevel HIGH_RISK then "high"
  else if String.eqb riskLevel MEDIUM_RISK then "medium"
  else "low".

Definition shouldSendImmediateAlert (riskScore transactionAmount : num)
    (alertSettings : option AlertSettings) : bool :=
  match alertSettings with
  | None => false
  | Some settings =>
      if negb (immediateAlerts settings) then false
      else
        let threshold :=
          parseFloat (if truthy (Schema.threshold settings)
                      then Schema.threshold settings else "100000") in
        ge riskScore (ofZ 70) || ge transactionAmount threshold
  end.

End RiskProfilingService.

(** ** server/routes.ts: POST /api/patients/:id/transactions *)

Module Routes.

Import AnomalyDetectionService.

(** The calls that write to the store, in the order the handler issues them. *)
Inductive StorageWrite : Type :=
| CreateTransaction (row : TransactionData)
| CreateAlert (row : InsertAlert)
| CreateRiskAssessment (row : InsertRiskAssessment)
| UpdatePatient (patientId : Z) (riskLevel : string).

Inductive Response : Type :=
| NotFound
| Json (transaction : Transaction) (anomaly : AnomalyDetectionResult).

(** What the store answers to the handler: the reads of
    [getTransactions(patientId, 20)], [getPatient] and [getAlertSettings],
    and the key and creation date given to the inserted transaction. *)
Record StoreAnswers : Type := {
  recentTransactions : list Transaction;
  patient : option Patient;
  alertSettings : option AlertSettings;
  newId : Z;
  newCreatedAt : option Z
}.

Section Handler.

(** [Number(s).toLocaleString()], which depends on the host's locale. *)
Variable formatAmount : string -> string.

Definition alertTypeOf (riskScore : Z) : string :=
  if 70 <=? riskScore then URGENT
  else if 50 <=? riskScore then HIGH_RISK
  else MEDIUM_RISK.

(** A thirtieth of the patient's average monthly spending, 0 standing for a
    missing one. *)
Definition avgDailySpending (patient : Patient) : num :=
  div (parseFloat (orElse (avgMonthlySpending patient) "0")) (ofZ 30).

(** [{ ...transactionData, isAnomaly, riskScore }] *)
Definition withAnomaly (transactionData : TransactionData)
    (anomalyResult : AnomalyDetectionResult) : TransactionData :=
  {| Schema.patientId := Schema.patientId transactionData;
     amount := amount transactionData;
     type := type transactionData;
     location := location transactionData;
     merchant := merchant transactionData;
     description := description transactionData;
     timestamp := timestamp transactionData;
     isAnomaly := Some (resIsAnomaly anomalyResult);
     riskScore := Some (resRiskScore anomalyResult) |}.

(** The row [storage.createTransaction] returns: the inserted columns with
    the key and creation date of the store. *)
Definition createdRow (store : StoreAnswers) (inserted : TransactionData) : Transaction :=
  {| id := newId store; data := inserted; createdAt := newCreatedAt store |}.

(** [Math.round((frequencyScore + amountScore + timingScore + locationScore) / 4)] *)
Definition averageScore (riskFactors : RiskFactors) : num :=
  round (div (add (add (add (rfFrequencyScore riskFactors) (rfAmountScore riskFactors))
                       (rfTimingScore riskFactors))
                  (rfLocationScore riskFactors))
             (ofZ 4)).

Definition postTransaction (now patientId : Z) (transactionData : TransactionData)
    (store : StoreAnswers) : Response * list StorageWrite :=
  match patient store with
  | None => (NotFound, [])
  | Some patient =>
      let avgSpending := avgDailySpending patient in
      let anomalyResult :=
        detectAnomaly transactionData (recentTransactions store) avgSpending in
      let inserted := withAnomaly transactionData anomalyResult in
      let transaction := createdRow store inserted in
      if resIsAnomaly anomalyResult then
        let alertSettings := alertSettings store in
        let alertType := alertTypeOf (resRiskScore anomalyResult) in
        let alert :=
          {| alertPatientId := patientId;
             transactionId := Some (id transaction);
             Schema.alertType := alertType;
             title := alertType +:+ ": " +:+ type transaction +:+ " 거래 감지";
             message :=
               name patient +:+ "님이 " +:+ orElse (location transaction) "알 수 없는 위치"
               +:+ "에서 " +:+ formatAmount (amount transaction) +:+ "원 "
               +:+ type transaction +:+ " 거래를 했습니다. 위험도: "
               +:+ pretty (resRiskScore anomalyResult) +:+ "/100";
             severity :=
               RiskProfilingService.getAlertPriority
                 (if String.eqb alertType URGENT then HIGH_RISK else alertType) |} in
        let riskFactors :=
          calculateRiskFactors now patientId (recentTransactions store ++ [transaction])%list in
        let totalScore := averageScore riskFactors in
        let assessment :=
          {| assessedPatientId := patientId;
             frequencyScore := rfFrequencyScore riskFactors;
             amountScore := rfAmountScore riskFactors;
             timingScore := rfTimingScore riskFactors;
             locationScore := rfLocationScore riskFactors;
             Schema.totalScore := totalScore |} in
        let newRiskLevel :=
          if ge totalScore (ofZ 70) then HIGH_RISK
          else if ge totalScore (ofZ 40) then MEDIUM_RISK
          else LOW_RISK in
        (Json transaction anomalyResult,
         [CreateTransaction inserted; CreateAlert alert;
          CreateRiskAssessment assessment; UpdatePatient patientId newRiskLevel])
      else
        (Json transaction anomalyResult, [CreateTransaction inserted])
  end.

(** The [Alert] rows among the writes. *)
Definition alertsCreated (writes : list StorageWrite) : list InsertAlert :=
  omap (fun w => match w with CreateAlert a => Some a | _ => None end) writes.

End Handler.

End Routes.

(** ** server/routes.ts: the same handler with its catch branch *)

Module Request.

Import Routes.

(** What the client receives: the answer of the handler, or that of the
    catch branch, which is the status 500. *)
Inductive Outcome : Type :=
| Sent (response : Response)
| Failed.

Section Run.

(** Whether the database carries out a write; a write it refuses throws. *)
Variable accepts : StorageWrite -> bool.

(** The writes carried out up to the first one that throws, and whether none
    has thrown.  No write is taken back: the handler opens no transaction
    of the database. *)
Fixpoint carryOut (writes : list StorageWrite) : list StorageWrite * bool :=
  match writes with
  | [] => ([], true)
  | w :: rest =>
      if accepts w
      then (w :: (carryOut rest).1, (carryOut rest).2)
      else ([], false)
  end.

Definition postTransactionCaught (formatAmount : string -> string) (now patientId : Z)
    (transactionData : TransactionData) (store : StoreAnswers)
    : Outcome * list StorageWrite :=
  let issued := postTransaction formatAmount now patientId transactionData store in
  let carried := carryOut issued.2 in
  (if carried.2 then Sent issued.1 else Failed, carried.1).

End Run.

End Request.

(** ** server/routes.ts: GET /api/activity *)

Module ActivityFeed.

Record Activity : Type := {
  activityId : Z;
  patientName : string;
  activityDescription : string;
  activityLocation : string;
  timeAgo : string;
  activityRiskLevel : string;
  activityIsAnomaly : option bool
}.

Definition NORMAL : string := "정상".

(** The label of a stored risk score; a missing score compares as 0. *)
Definition riskLabel (riskScore : option Z) : string :=
  let score := match riskScore with Some s => s | None => 0 end in
  if 70 <=? score then HIGH_RISK
  else if 50 <=? score then MEDIUM_RISK
  else NORMAL.

(** The whole minutes from [timestamp] to [now], rounded downwards. *)
Definition minutesAgo (now timestamp : Z) : Z := (now - timestamp) / (1000 * 60).

Definition timeAgoLabel (minutes : Z) : string :=
  if minutes =? 0 then "방금 전" else pretty minutes +:+ "분 전".

Section Feed.

(** [Number(s).toLocaleString()], which depends on the host's locale. *)
Variable formatAmount : string -> string.

(** [Date.now()], read once for the whole request. *)
Variable now : Z.

Definition activityOf (patient : Patient) (transaction : Transaction) : Activity :=
  {| activityId := id transaction;
     patientName := name patient;
     activityDescription :=
       type transaction +:+ " - " +:+ formatAmount (amount transaction) +:+ "원";
     activityLocation :=
       orElse (merchant transaction) (orElse (location transaction) "알 수 없는 위치");
     timeAgo := timeAgoLabel (minutesAgo now (timestamp transaction));
     activityRiskLevel := riskLabel (riskScore transaction);
     activityIsAnomaly := isAnomaly transaction |}.

(** The loop over the patients and, for each, over the transactions the
    store returned for it. *)
Definition collect (answers : list (Patient * list Transaction)) : list Activity :=
  flat_map (fun pr : Patient * list Transaction => map (activityOf pr.1) pr.2) answers.

End Feed.

(** [activities.sort((a, b) => a.id - b.id)]: the stable sort by
    ascending key, as an insertion sort. *)
Fixpoint insertById (a : Activity) (sorted : list Activity) : list Activity :=
  match sorted with
  | [] => [a]
  | b :: rest =>
      if activityId a <=? activityId b then a :: b :: rest
      else b :: insertById a rest
  end.

Definition sortById (activities : list Activity) : list Activity :=
  fold_right insertById [] activities.

(** The answer of the endpoint: [activities.slice(0, 10)] after the sort. *)
Definition activityFeed (formatAmount : string -> string) (now : Z)
    (answers : list (Patient * list Transaction)) : list Activity :=
  take 10 (sortById (collect formatAmount now answers)).

End ActivityFeed.

(** ** server/seedData.ts: the generated demonstration rows *)

Module SeedData.

(** The values [Math.random()] returns while one transaction is generated,
    in the order they are drawn after the hour and the minute. *)
Record Draws : Type := {
  uBranch : Q;
  uAmount : Q;
  uScore : Q
}.

(** [Math.floor(u * n) + base], on the exact product; the double product
    of the code may reach the next integer, never [n] itself. *)
Definition floorTimes (u : Q) (n base : Z) : Z := Qfloor (u * inject_Z n) + base.

Record Characteristics : Type := {
  seedAmount : Z;
  seedIsAnomaly : bool;
  seedRiskScore : Z
}.

(** Amount, flag and score of one generated transaction of a patient of
    tier [riskLevel] at [hour] o'clock, the score as it is inserted. *)
Definition characteristics (riskLevel : string) (hour : Z) (d : Draws) : Characteristics :=
  let '(amount, isAnomaly, riskScore) :=
    if String.eqb riskLevel HIGH_RISK then
      if negb (Qle_bool (3 # 10) (uBranch d))
      then (floorTimes (uAmount d) 800000 200000, true, floorTimes (uScore d) 30 70)
      else (floorTimes (uAmount d) 150000 10000, false, floorTimes (uScore d) 40 20)
    else if String.eqb riskLevel MEDIUM_RISK then
      if negb (Qle_bool (15 # 100) (uBranch d))
      then (floorTimes (uAmount d) 300000 100000, true, floorTimes (uScore d) 30 50)
      else (floorTimes (uAmount d) 80000 5000, false, floorTimes (uScore d) 30 10)
    else
      if negb (Qle_bool (5 # 100) (uBranch d))
      then (floorTimes (uAmount d) 150000 50000, true, floorTimes (uScore d) 20 40)
      else (floorTimes (uAmount d) 50000 3000, false, floorTimes (uScore d) 20 5) in
  let '(isAnomaly, riskScore) :=
    if (23 <=? hour) || (hour <=? 6)
    then ((if 50 <=? riskScore + 15 then true else isAnomaly), riskScore + 15)
    else (isAnomaly, riskScore) in
  {| seedAmount := amount;
     seedIsAnomaly := isAnomaly;
     seedRiskScore := Z.min riskScore 100 |}.

(** Type and severity of the alert generated for a flagged row. *)
Definition alertTypeOf (riskScore : Z) : string :=
  if 80 <=? riskScore then URGENT
  else if 60 <=? riskScore then HIGH_RISK
  else MEDIUM_RISK.

Definition severityOf (riskScore : Z) : string :=
  if 80 <=? riskScore then "high"
  else if 60 <=? riskScore then "high"
  else "medium".

End SeedData.

(** ** Notions used in the statements *)

(** The hours the profiler counts as night: from 22:00 up to, not including, 08:00. *)
Definition nightClock (d : Z) : bool :=
  (22 * msPerHour <=? msOfDay d) || (msOfDay d <? 8 * msPerHour).

(** The number of transactions of [week] made in those hours. *)
Definition nightCount (week : list Transaction) : Z :=
  Z.of_nat (length (List.filter (fun t : Transaction => nightClock (timestamp t)) week)).

(** The adjusted score of the integer base [b] at dementia stage [stage]. *)
Definition adjustedAt (stage : string) (b : Z) : num :=
  RiskProfilingService.adjust (ofZ b)
    (RiskProfilingService.getDementiaRiskMultiplier (Some stage)).

Module Spec.

(** The night window as the specification words it: a clock time in
    [22:00-07:00]. *)
Definition inNightWindow (d : Z) : bool :=
  (22 * msPerHour <=? msOfDay d) || (msOfDay d <=? 7 * msPerHour).

(** The percentage of [week] whose clock time lies in that window. *)
Definition nightPercentage (week : list Transaction) : num :=
  mul (div (ofNat (length (List.filter (fun t : Transaction => inNightWindow (timestamp t)) week)))
           (ofNat (length week)))
      (ofZ 100).

End Spec.

(** ** Sample data *)

Module Sample.

(** A withdrawal of 1,200,000 at an ATM at 02:00 of day 20000. *)
Definition nightWithdrawal : TransactionData :=
  {| patientId := 1; amount := "1200000"; type := "ATM";
     location := None; merchant := None; description := None;
     timestamp := atClock 20000 2 0; isAnomaly := None; riskScore := None |}.

(** A card payment of 12,000 at 07:30 of day 20000. *)
Definition morningPayment : Transaction :=
  {| id := 3;
     data := {| patientId := 1; amount := "12000"; type := "카드결제";
                location := None; merchant := None; description := None;
                timestamp := atClock 20000 7 30;
                isAnomaly := Some false; riskScore := Some 0 |};
     createdAt := None |}.

(** A patient without a dementia stage who spends 3,000,000 a month,
    which is 100,000 a day. *)
Definition patient : Patient :=
  {| patientRowId := 1; name := "Kim"; age := 78; riskLevel := LOW_RISK;
     dementiaStage := None; avgMonthlySpending := Some "3000000" |}.

(** Immediate alerts are switched off. *)
Definition settingsOff : AlertSettings :=
  {| threshold := "100000"; immediateAlerts := false |}.

Definition settingsOn : AlertSettings :=
  {| threshold := "100000"; immediateAlerts := true |}.

(** An empty history, the patient above and the settings [settings]. *)
Definition store (settings : option AlertSettings) : Routes.StoreAnswers :=
  {| Routes.recentTransactions := []; Routes.patient := Some patient;
     Routes.alertSettings := settings; Routes.newId := 7; Routes.newCreatedAt := None |}.

(** One minute past two of day 20000. *)
Definition now : Z := atClock 20000 2 1.

(** Twenty-one payments of 10,000 made the day before, 210,000 in all, and a
    patient who spends 900,000 a month. *)
Definition threeADay : list Transaction :=
  repeat {| id := 4;
            data := {| patientId := 1; amount := "10000"; type := "카드결제";
                       location := None; merchant := None; description := None;
                       timestamp := atClock 19999 12 0;
                       isAnomaly := Some false; riskScore := Some 0 |};
            createdAt := None |} 21.

Definition modestPatient : Patient :=
  {| patientRowId := 2; name := "Park"; age := 82; riskLevel := LOW_RISK;
     dementiaStage := None; avgMonthlySpending := Some "900000" |}.

(** The identity stands for the locale's number format. *)
Definition plainFormat (s : string) : string := s.

End Sample.

(** ** Further notions and sample data *)

(** The number is finite and not negative. *)
Definition nonNegative (a : num) : Prop := exists q : Q, a = Fin q /\ (0 <= q)%Q.

(** A partial result is explained: its score is not negative, it is 0
    exactly when no reason is given, and no reason is empty. *)
Definition Explained (p : AnomalyDetectionService.Partial) : Prop :=
  0 <= p.1 /\ (p.1 = 0 <-> p.2 = []) /\ forallb truthy p.2 = true.

(** The order of the activities by their keys. *)
Definition byId (a b : ActivityFeed.Activity) : Prop :=
  ActivityFeed.activityId a <= ActivityFeed.activityId b.

(** A value that [Math.random()] can return. *)
Definition unitDraw (u : Q) : Prop := (0 <= u)%Q /\ (u < 1)%Q.

(** A divisor by which dividing keeps the order. *)
Definition keepsOrder (d : num) : Prop :=
  match d with Fin v => (0 <= v)%Q | _ => True end.

Module Cases.

(** A grocery payment of 30,000 in Gangnam at noon of day 19999. *)
Definition grocery : Transaction :=
  {| id := 11;
     data := {| patientId := 1; amount := "30000"; type := "카드결제";
                location := Some "Seoul Gangnam"; merchant := Some "Mart";
                description := None; timestamp := atClock 19999 12 0;
                isAnomaly := Some false; riskScore := Some 10 |};
     createdAt := None |}.

(** A withdrawal of 1,200,000 dated a month before [Sample.now]. *)
Definition backDated : TransactionData :=
  {| patientId := 1; amount := "1200000"; type := "ATM";
     location := None; merchant := None; description := None;
     timestamp := atClock 19970 2 0; isAnomaly := None; riskScore := None |}.

(** A small payment at noon, which scores nothing. *)
Definition smallPayment : TransactionData :=
  {| patientId := 1; amount := "5000"; type := "카드결제";
     location := None; merchant := None; description := None;
     timestamp := atClock 20000 12 0; isAnomaly := None; riskScore := None |}.

(** The night withdrawal of the samples as it is stored: flagged, score 95. *)
Definition flagged : Transaction :=
  {| id := 7;
     data := {| patientId := 1; amount := "1200000"; type := "ATM";
                location := None; merchant := None; description := None;
                timestamp := atClock 20000 2 0;
                isAnomaly := Some true; riskScore := Some 95 |};
     createdAt := None |}.

(** The same withdrawal for half the amount. *)
Definition halfWithdrawal : TransactionData :=
  {| patientId := 1; amount := "600000"; type := "ATM";
     location := None; merchant := None; description := None;
     timestamp := atClock 20000 2 0; isAnomaly := None; riskScore := None |}.

(** A database that refuses a risk assessment with a score that is not an
    integer, and carries out every other write. *)
Definition isInteger (a : num) : bool :=
  match a with
  | Fin q => Qeq_bool q (inject_Z (Qfloor q))
  | _ => false
  end.

Definition integerScores (w : Routes.StorageWrite) : bool :=
  match w with
  | Routes.CreateRiskAssessment row =>
      isInteger (totalScore row) && isInteger (frequencyScore row)
      && isInteger (amountScore row) && isInteger (timingScore row)
      && isInteger (locationScore row)
  | _ => true
  end.

(** Immediate alerts are on and the threshold is the empty string. *)
Definition noThreshold : AlertSettings :=
  {| threshold := EmptyString; immediateAlerts := true |}.

(** The factors of a quiet week. *)
Definition quietFactors : RiskProfilingService.Factors :=
  {| RiskProfilingService.frequency := ofZ 15; RiskProfilingService.amount := ofZ 20;
     RiskProfilingService.timing := ofZ 0; RiskProfilingService.location := ofZ 20 |}.

End Cases.

(** * Facts about the number model *)

Section NumFacts.

Lemma Qle_bool_inject_Z (a b : Z) : Qle_bool (inject_Z a) (inject_Z b) = (a <=? b).
Proof. unfold Qle_bool. simpl. now rewrite !Z.mul_1_r. Qed.

Lemma ge_ofZ (a b : Z) : ge (ofZ a) (ofZ b) = (b <=? a).
Proof. apply Qle_bool_inject_Z. Qed.

Lemma gt_ofZ (a b : Z) : gt (ofZ a) (ofZ b) = (b <? a).
Proof.
  unfold gt, ofZ. rewrite Qle_bool_inject_Z.
  destruct (Z.leb_spec a b), (Z.ltb_spec b a); simpl; try reflexivity; lia.
Qed.

Lemma min_ofZ (a b : Z) : min (ofZ a) (ofZ b) = ofZ (Z.min a b).
Proof.
  unfold min. rewrite ge_ofZ. unfold ofZ at 1 2.
  destruct (Z.leb_spec b a).
  - now rewrite Z.min_r.
  - rewrite Z.min_l by lia. reflexivity.
Qed.

Lemma ofZ_inj (a b : Z) : ofZ a = ofZ b -> a = b.
Proof. unfold ofZ, inject_Z. congruence. Qed.

(** Rounding a fraction is an integer division. *)
Lemma Qfloor_half (n : Z) (d : positive) :
  Qfloor ((n # d) + (1 # 2)) = (2 * n + Zpos d) / (2 * Zpos d).
Proof.
  unfold Qfloor, Qplus. simpl Qnum. simpl Qden.
  f_equal; lia.
Qed.

Lemma round_between (q : Q) (lo hi : Z) :
  (inject_Z lo <= q)%Q -> (q <= inject_Z hi)%Q ->
  exists z, round (Fin q) = ofZ z /\ lo <= z <= hi.
Proof.
  intros Hlo Hhi. exists (Qfloor (q + (1 # 2))). split; [reflexivity|].
  destruct q as [n d]. rewrite Qfloor_half.
  unfold Qle in Hlo, Hhi. simpl in Hlo, Hhi.
  split.
  - apply Z.div_le_lower_bound; nia.
  - apply Z.lt_succ_r. apply Z.div_lt_upper_bound; nia.
Qed.

Lemma intBetween_ofZ (lo hi z : Z) : lo <= z <= hi -> intBetween lo hi (ofZ z).
Proof. intros H. exists z. auto. Qed.

(** The share [n / w] of a part in a non-empty whole, as a percentage. *)
Lemma percentage_between (n w : nat) :
  (n <= w)%nat -> (0 < w)%nat ->
  exists q, mul (div (ofNat n) (ofNat w)) (ofZ 100) = Fin q /\
            (inject_Z 0 <= q)%Q /\ (q <= inject_Z 100)%Q.
Proof.
  intros Hle Hpos. destruct w as [|k]; [lia|].
  unfold ofNat, ofZ, div, mul.
  replace (Qeq_bool (inject_Z (Z.of_nat (S k))) 0) with false by reflexivity.
  eexists. split; [reflexivity|].
  unfold Qle, Qdiv, Qmult, Qinv. simpl. lia.
Qed.

End NumFacts.

(** Case analysis on every test of the goal. *)
Ltac split_ifs :=
  repeat match goal with
         | |- context [if ?c then _ else _] => destruct c
         | |- context [match ?l with [] => _ | _ :: _ => _ end] => destruct l
         | |- context [match ?o with Some _ => _ | None => _ end] => destruct o
         end.

(** * Facts about the anomaly scorer *)

Section AnomalyFacts.

Import AnomalyDetectionService.

Lemma analyzeAmount_score amount avgSpending recentTransactions :
  0 <= (analyzeAmount amount avgSpending recentTransactions).1 <= 105.
Proof. unfold analyzeAmount. split_ifs; simpl; lia. Qed.

Lemma analyzeFrequency_score transaction recentTransactions :
  0 <= (analyzeFrequency transaction recentTransactions).1 <= 55.
Proof. unfold analyzeFrequency. split_ifs; simpl; lia. Qed.

Lemma analyzeTime_score timestamp :
  0 <= (analyzeTime timestamp).1 <= 20.
Proof. unfold analyzeTime. split_ifs; simpl; lia. Qed.

Lemma analyzeMerchant_score merchant description :
  0 <= (analyzeMerchant merchant description).1 <= 60.
Proof.
  unfold analyzeMerchant.
  destruct (find _ HIGH_RISK_KEYWORDS); split_ifs; simpl; lia.
Qed.

Lemma analyzeLocation_score location recentTransactions :
  0 <= (analyzeLocation location recentTransactions).1 <= 15.
Proof.
  unfold analyzeLocation. destruct location as [loc|]; [|simpl; lia].
  destruct (negb (truthy loc)); [simpl; lia|].
  destruct (take 10 _); [simpl; lia|].
  destruct (negb _); simpl; lia.
Qed.

End AnomalyFacts.

(** * Facts about the risk profiler *)

Section ProfilerFacts.

Import RiskProfilingService.

(** The multiplier is one of the four constants of the switch. *)
Lemma getDementiaRiskMultiplier_cases (stage : option string) :
  getDementiaRiskMultiplier stage = Fin (1 # 1) \/
  getDementiaRiskMultiplier stage = Fin (11 # 10) \/
  getDementiaRiskMultiplier stage = Fin (13 # 10) \/
  getDementiaRiskMultiplier stage = Fin (15 # 10).
Proof. unfold getDementiaRiskMultiplier. split_ifs; auto. Qed.

(** The adjusted score of an integer base, as an integer division. *)
Lemma adjust_ofZ (b p : Z) (q : positive) :
  adjust (ofZ b) (Fin (p # q)) = ofZ (Z.min ((2 * (b * p) + Zpos q) / (2 * Zpos q)) 100).
Proof.
  unfold adjust. rewrite <- min_ofZ. f_equal.
  unfold mul, ofZ, round, inject_Z, Qmult. simpl Qnum. simpl Qden.
  now rewrite Qfloor_half.
Qed.

Lemma adjust_between (b : Z) (stage : option string) :
  0 <= b <= 100 ->
  intBetween 0 100 (adjust (ofZ b) (getDementiaRiskMultiplier stage)).
Proof.
  intros Hb.
  destruct (getDementiaRiskMultiplier_cases stage) as [E | [E | [E | E]]];
    rewrite E, adjust_ofZ; apply intBetween_ofZ;
    (split; [apply Z.min_glb; [apply Z.div_le_lower_bound|]; lia | apply Z.le_min_r]).
Qed.

Lemma frequencyBase_between week : intBetween 0 100 (frequencyBase week).
Proof. unfold frequencyBase. split_ifs; apply intBetween_ofZ; lia. Qed.

Lemma amountBase_between patient week : intBetween 0 100 (amountBase patient week).
Proof. unfold amountBase. split_ifs; apply intBetween_ofZ; lia. Qed.

Lemma locationBase_between week : intBetween 0 100 (locationBase week).
Proof. unfold locationBase. split_ifs; apply intBetween_ofZ; lia. Qed.

Lemma timingBase_between week : intBetween 0 100 (timingBase week).
Proof.
  unfold timingBase. destruct (Nat.ltb_spec 0 (length week)) as [Hpos|_].
  - destruct (percentage_between (length (nightTransactions week)) (length week))
      as (q & -> & Hlo & Hhi); [apply List.filter_length_le | exact Hpos |].
    destruct (round_between q 0 100 Hlo Hhi) as (z & -> & Hz).
    now apply intBetween_ofZ.
  - apply intBetween_ofZ. lia.
Qed.

Lemma calculateRiskFactors_between now patient recentTransactions :
  let f := calculateRiskFactors now patient recentTransactions in
  intBetween 0 100 (frequency f) /\ intBetween 0 100 (amount f) /\
  intBetween 0 100 (timing f) /\ intBetween 0 100 (location f).
Proof.
  unfold calculateRiskFactors. cbn [frequency amount timing location].
  set (week := since now 7 recentTransactions).
  destruct (frequencyBase_between week) as (b1 & -> & H1).
  destruct (amountBase_between patient week) as (b2 & -> & H2).
  destruct (timingBase_between week) as (b3 & -> & H3).
  destruct (locationBase_between week) as (b4 & -> & H4).
  repeat split; now apply adjust_between.
Qed.

(** The weighted total of four scores in 0..100 is again in 0..100. *)
Lemma calculateTotalScore_between (f : Factors) :
  intBetween 0 100 (frequency f) -> intBetween 0 100 (amount f) ->
  intBetween 0 100 (timing f) -> intBetween 0 100 (location f) ->
  intBetween 0 100 (calculateTotalScore f).
Proof.
  intros (a & Ea & Ha) (b & Eb & Hb) (c & Ec & Hc) (d & Ed & Hd).
  unfold calculateTotalScore. rewrite Ea, Eb, Ec, Ed. unfold ofZ, mul, add.
  assert (Qa : (inject_Z 0 <= inject_Z a)%Q /\ (inject_Z a <= inject_Z 100)%Q)
    by (rewrite <- !Zle_Qle; lia).
  assert (Qb : (inject_Z 0 <= inject_Z b)%Q /\ (inject_Z b <= inject_Z 100)%Q)
    by (rewrite <- !Zle_Qle; lia).
  assert (Qc : (inject_Z 0 <= inject_Z c)%Q /\ (inject_Z c <= inject_Z 100)%Q)
    by (rewrite <- !Zle_Qle; lia).
  assert (Qd : (inject_Z 0 <= inject_Z d)%Q /\ (inject_Z d <= inject_Z 100)%Q)
    by (rewrite <- !Zle_Qle; lia).
  change (inject_Z 0) with 0%Q in *. change (inject_Z 100) with 100%Q in *.
  destruct Qa, Qb, Qc, Qd.
  destruct (round_between
              (inject_Z a * (3 # 10) + inject_Z b * (4 # 10)
               + inject_Z c * (15 # 100) + inject_Z d * (15 # 100)) 0 100)
    as (z & -> & Hz).
  - change (inject_Z 0) with 0%Q. lra.
  - change (inject_Z 100) with 100%Q. lra.
  - now apply intBetween_ofZ.
Qed.

End ProfilerFacts.

(** * The anomaly scorer *)

Section AnomalyScorer.

Import AnomalyDetectionService.

Lemma detectAnomaly_score_eq transaction recentTransactions patientAvgSpending :
  resRiskScore (detectAnomaly transaction recentTransactions patientAvgSpending) =
  Z.min ((analyzeAmount (amount transaction) patientAvgSpending recentTransactions).1
         + (analyzeFrequency transaction recentTransactions).1
         + (analyzeTime (timestamp transaction)).1
         + (analyzeMerchant (merchant transaction) (description transaction)).1
         + (analyzeLocation (location transaction) recentTransactions).1) 100.
Proof. reflexivity. Qed.

Lemma detectAnomaly_flag_eq transaction recentTransactions patientAvgSpending :
  resIsAnomaly (detectAnomaly transaction recentTransactions patientAvgSpending) =
  (30 <=? resRiskScore (detectAnomaly transaction recentTransactions patientAvgSpending)).
Proof. reflexivity. Qed.

(** C3: the scorer flags a transaction exactly when its risk score is at
    least 30, whatever the candidate, the history and the average. *)
Theorem isAnomaly_iff_score_ge_30 transaction recentTransactions patientAvgSpending :
  resIsAnomaly (detectAnomaly transaction recentTransactions patientAvgSpending) = true <->
  30 <= resRiskScore (detectAnomaly transaction recentTransactions patientAvgSpending).
Proof. rewrite detectAnomaly_flag_eq. apply Z.leb_le. Qed.

(** C6: the 1,200,000 withdrawal at an ATM at two in the morning, with no
    merchant, description or location, no history and an average of 100,000,
    scores 40 + 35 = 75 for the amount and 20 for the time, nothing else,
    hence 95, and is flagged. *)
Theorem example1_scores_95 (transaction : TransactionData) :
  amount transaction = "1200000" ->
  type transaction = "ATM" ->
  getHours (timestamp transaction) = 2 ->
  merchant transaction = None ->
  description transaction = None ->
  location transaction = None ->
  (analyzeAmount (amount transaction) (ofZ 100000) []).1 = 75 /\
  (analyzeFrequency transaction []).1 = 0 /\
  (analyzeTime (timestamp transaction)).1 = 20 /\
  (analyzeMerchant (merchant transaction) (description transaction)).1 = 0 /\
  (analyzeLocation (location transaction) []).1 = 0 /\
  resRiskScore (detectAnomaly transaction [] (ofZ 100000)) = 95 /\
  resIsAnomaly (detectAnomaly transaction [] (ofZ 100000)) = true.
Proof.
  intros Ha Ht Hh Hm Hd Hl.
  assert (E1 : (analyzeAmount (amount transaction) (ofZ 100000) []).1 = 75)
    by (rewrite Ha; vm_compute; reflexivity).
  assert (E2 : (analyzeFrequency transaction []).1 = 0)
    by (unfold analyzeFrequency; rewrite Ht; reflexivity).
  assert (E3 : (analyzeTime (timestamp transaction)).1 = 20)
    by (unfold analyzeTime; rewrite Hh; reflexivity).
  assert (E4 : (analyzeMerchant (merchant transaction) (description transaction)).1 = 0)
    by (rewrite Hm, Hd; vm_compute; reflexivity).
  assert (E5 : (analyzeLocation (location transaction) []).1 = 0)
    by (rewrite Hl; reflexivity).
  assert (E : resRiskScore (detectAnomaly transaction [] (ofZ 100000)) = 95)
    by (rewrite detectAnomaly_score_eq, E1, E2, E3, E4, E5; reflexivity).
  repeat split; try assumption.
  rewrite detectAnomaly_flag_eq, E. reflexivity.
Qed.

Lemma example1_scores_95_witness :
  (analyzeAmount (amount Sample.nightWithdrawal) (ofZ 100000) []).1 = 75 /\
  (analyzeFrequency Sample.nightWithdrawal []).1 = 0 /\
  (analyzeTime (timestamp Sample.nightWithdrawal)).1 = 20 /\
  (analyzeMerchant (merchant Sample.nightWithdrawal) (description Sample.nightWithdrawal)).1 = 0 /\
  (analyzeLocation (location Sample.nightWithdrawal) []).1 = 0 /\
  resRiskScore (detectAnomaly Sample.nightWithdrawal [] (ofZ 100000)) = 95 /\
  resIsAnomaly (detectAnomaly Sample.nightWithdrawal [] (ofZ 100000)) = true.
Proof.
  exact (example1_scores_95 Sample.nightWithdrawal
           eq_refl eq_refl eq_refl eq_refl eq_refl eq_refl).
Defined.

End AnomalyScorer.

(** * The risk profiler *)

Section RiskProfiler.

Import AnomalyDetectionService RiskProfilingService.

Lemma assessRisk_between now patient recentTransactions :
  intBetween 0 100 (totalScore (assessRisk now patient recentTransactions)) /\
  intBetween 0 100 (frequency (factors (assessRisk now patient recentTransactions))) /\
  intBetween 0 100 (amount (factors (assessRisk now patient recentTransactions))) /\
  intBetween 0 100 (timing (factors (assessRisk now patient recentTransactions))) /\
  intBetween 0 100 (location (factors (assessRisk now patient recentTransactions))).
Proof.
  unfold assessRisk. cbn [totalScore factors].
  destruct (calculateRiskFactors_between now patient recentTransactions) as (H1 & H2 & H3 & H4).
  split; [now apply calculateTotalScore_between | auto].
Qed.

(** C4: the risk score of the anomaly scorer lies in 0..100 for every
    input, and so do the total score and the four factor scores of the
    profile [assessRisk] returns. *)
Theorem scores_within_0_100 :
  (forall transaction recentTransactions patientAvgSpending,
      0 <= resRiskScore (detectAnomaly transaction recentTransactions patientAvgSpending) <= 100)
  /\
  (forall now patient recentTransactions,
      intBetween 0 100 (totalScore (assessRisk now patient recentTransactions)) /\
      intBetween 0 100 (frequency (factors (assessRisk now patient recentTransactions))) /\
      intBetween 0 100 (amount (factors (assessRisk now patient recentTransactions))) /\
      intBetween 0 100 (timing (factors (assessRisk now patient recentTransactions))) /\
      intBetween 0 100 (location (factors (assessRisk now patient recentTransactions)))).
Proof.
  split.
  - intros transaction recentTransactions patientAvgSpending.
    rewrite detectAnomaly_score_eq.
    pose proof (analyzeAmount_score (Schema.amount transaction) patientAvgSpending recentTransactions).
    pose proof (analyzeFrequency_score transaction recentTransactions).
    pose proof (analyzeTime_score (timestamp transaction)).
    pose proof (analyzeMerchant_score (merchant transaction) (description transaction)).
    pose proof (analyzeLocation_score (Schema.location transaction) recentTransactions).
    lia.
  - apply assessRisk_between.
Qed.

(** Three transactions a day fall in the bucket above 2, not above 3, and a
    ratio of 0.93 in the lowest amount bucket. *)
Example three_a_day_scores :
  frequency (calculateRiskFactors Sample.now Sample.modestPatient Sample.threeADay) = ofZ 35 /\
  amount (calculateRiskFactors Sample.now Sample.modestPatient Sample.threeADay) = ofZ 20.
Proof. split; vm_compute; reflexivity. Qed.

(** Four base scores of 50 at the mild stage give four factors of 55, a total
    of 55 and the medium tier. *)
Example mild_fifties_are_medium :
  adjust (ofZ 50) (getDementiaRiskMultiplier (Some MILD)) = ofZ 55 /\
  calculateTotalScore
    {| frequency := ofZ 55; amount := ofZ 55; timing := ofZ 55; location := ofZ 55 |} = ofZ 55 /\
  determineRiskLevel (ofZ 55) = MEDIUM_RISK.
Proof. repeat split; vm_compute; reflexivity. Qed.

(** The three labels are distinct. *)
Lemma risk_labels_distinct :
  LOW_RISK <> MEDIUM_RISK /\ MEDIUM_RISK <> HIGH_RISK /\ LOW_RISK <> HIGH_RISK.
Proof. repeat split; discriminate. Qed.

(** C5: the tiers split 0..100 at 40 and 70, each boundary belonging to
    the upper tier: below 40 is low, from 40 to below 70 is medium, from 70
    on is high. *)
Theorem determineRiskLevel_tiers (q : Q) :
  (0 <= q)%Q -> (q <= 100)%Q ->
  ((q < 40)%Q -> determineRiskLevel (Fin q) = LOW_RISK) /\
  ((40 <= q)%Q -> (q < 70)%Q -> determineRiskLevel (Fin q) = MEDIUM_RISK) /\
  ((70 <= q)%Q -> determineRiskLevel (Fin q) = HIGH_RISK).
Proof.
  intros _ _. unfold determineRiskLevel, ge, ofZ.
  change (inject_Z 70) with 70%Q. change (inject_Z 40) with 40%Q.
  destruct (Qle_bool 70 q) eqn:E70; destruct (Qle_bool 40 q) eqn:E40;
    try (apply Qle_bool_iff in E70); try (apply Qle_bool_iff in E40);
    repeat split; intros; try reflexivity; exfalso.
  all: try (assert (~ (70 <= q)%Q) by (rewrite <- Qle_bool_iff; congruence)).
  all: try (assert (~ (40 <= q)%Q) by (rewrite <- Qle_bool_iff; congruence)).
  all: lra.
Qed.

Lemma determineRiskLevel_tiers_witness :
  determineRiskLevel (ofZ 70) = HIGH_RISK /\
  determineRiskLevel (ofZ 69) = MEDIUM_RISK /\
  determineRiskLevel (ofZ 39) = LOW_RISK.
Proof.
  assert (B : forall z : Z, 0 <= z <= 100 -> (0 <= inject_Z z)%Q /\ (inject_Z z <= 100)%Q).
  { intros z Hz. unfold Qle. simpl. lia. }
  split; [|split].
  - destruct (B 70 ltac:(lia)) as [L U].
    apply (determineRiskLevel_tiers (inject_Z 70) L U). unfold Qle. simpl. lia.
  - destruct (B 69 ltac:(lia)) as [L U].
    apply (determineRiskLevel_tiers (inject_Z 69) L U); [unfold Qle | unfold Qlt]; simpl; lia.
  - destruct (B 39 ltac:(lia)) as [L U].
    apply (determineRiskLevel_tiers (inject_Z 39) L U). unfold Qlt. simpl. lia.
Defined.

(** C7, as the code has it: with settings supplied, an immediate alert
    is due exactly when immediate alerts are switched on and the risk score
    is at least 70 or the amount reaches the threshold, the threshold being
    the number read from the threshold of the settings when that string is
    not empty, and 100000 when it is empty. *)
Theorem shouldSendImmediateAlert_iff_with_default (riskScore transactionAmount : num)
    (settings : AlertSettings) :
  shouldSendImmediateAlert riskScore transactionAmount (Some settings) = true <->
  immediateAlerts settings = true /\
  (ge riskScore (ofZ 70) = true \/
   ge transactionAmount
      (match threshold settings with
       | EmptyString => ofZ 100000
       | String _ _ => parseFloat (threshold settings)
       end) = true).
Proof.
  unfold shouldSendImmediateAlert.
  destruct (threshold settings) as [|c r] eqn:E; cbn [truthy];
    try change (parseFloat "100000") with (ofZ 100000);
    (destruct (immediateAlerts settings); cbn [negb];
     [rewrite orb_true_iff; tauto
     | split; [discriminate | intros [? _]; discriminate]]).
Qed.

Lemma shouldSendImmediateAlert_iff_with_default_witness :
  shouldSendImmediateAlert (ofZ 10) (ofZ 100000) (Some Sample.settingsOn) = true /\
  shouldSendImmediateAlert (ofZ 10) (ofZ 150000) (Some Cases.noThreshold) = true /\
  shouldSendImmediateAlert (ofZ 95) (ofZ 100000) (Some Sample.settingsOff) = false.
Proof.
  split; [|split].
  - apply (shouldSendImmediateAlert_iff_with_default (ofZ 10) (ofZ 100000) Sample.settingsOn).
    split; [reflexivity | right; reflexivity].
  - apply (shouldSendImmediateAlert_iff_with_default (ofZ 10) (ofZ 150000) Cases.noThreshold).
    split; [reflexivity | right; reflexivity].
  - destruct (shouldSendImmediateAlert (ofZ 95) (ofZ 100000) (Some Sample.settingsOff)) eqn:E;
      [|reflexivity].
    apply (shouldSendImmediateAlert_iff_with_default (ofZ 95) (ofZ 100000)
             Sample.settingsOff) in E.
    destruct E as [E _]. discriminate E.
Defined.

(** C7, as the claim words it, fails for settings whose threshold is the
    empty string, which reads as no number: with immediate alerts on and a
    risk score of 10, an amount of 150000 makes an alert due although it
    reaches no threshold read from the settings, and an amount of 50000 does
    not although it is above the 0 that an empty string counts as in a
    comparison; the code compares with 100000. *)
Lemma empty_threshold_reads_as_100000 :
  parseFloat (threshold Cases.noThreshold) = NaN /\
  shouldSendImmediateAlert (ofZ 10) (ofZ 150000) (Some Cases.noThreshold) = true /\
  shouldSendImmediateAlert (ofZ 10) (ofZ 50000) (Some Cases.noThreshold) = false /\
  ge (ofZ 50000) (ofZ 0) = true /\
  ~ (forall (riskScore transactionAmount : num) (settings : AlertSettings),
       shouldSendImmediateAlert riskScore transactionAmount (Some settings) = true <->
       immediateAlerts settings = true /\
       (ge riskScore (ofZ 70) = true \/
        ge transactionAmount (parseFloat (threshold settings)) = true)).
Proof.
  repeat split; try reflexivity.
  intros H. destruct (H (ofZ 10) (ofZ 150000) Cases.noThreshold) as [H1 _].
  destruct (H1 eq_refl) as [_ [H2 | H2]]; vm_compute in H2; discriminate H2.
Qed.

End RiskProfiler.

(** * The timing factor *)

Section TimingFactor.

Import RiskProfilingService.

(** The test on the hour is a test on the clock. *)
Lemma isNightHour_clock (d : Z) : isNightHour (getHours d) = nightClock d.
Proof.
  unfold isNightHour, nightClock, getHours, msOfDay, msPerDay, msPerHour.
  apply eq_true_iff_eq. rewrite !orb_true_iff, !Z.leb_le, Z.ltb_lt.
  Z.div_mod_to_equations. lia.
Qed.

Lemma nightTransactions_clock (week : list Transaction) :
  nightTransactions week = List.filter (fun t : Transaction => nightClock (timestamp t)) week.
Proof.
  unfold nightTransactions. apply List.filter_ext. intros t. apply isNightHour_clock.
Qed.

(** The rounded percentage, as an integer division. *)
Lemma rounded_percentage (n w : nat) :
  (0 < w)%nat ->
  round (mul (div (ofNat n) (ofNat w)) (ofZ 100)) =
  ofZ ((200 * Z.of_nat n + Z.of_nat w) / (2 * Z.of_nat w)).
Proof.
  intros Hpos. destruct w as [|k]; [lia|].
  unfold ofNat, ofZ, div, mul.
  replace (Qeq_bool (inject_Z (Z.of_nat (S k))) 0) with false by reflexivity.
  unfold round, Qdiv, Qmult, Qinv, inject_Z. simpl Qnum. simpl Qden.
  rewrite Qfloor_half. unfold inject_Z. do 2 f_equal.
  f_equal; lia.
Qed.

(** C8, as the code has it: the timing base score, which
    [calculateRiskFactors] then adjusts by the multiplier, is the percentage
    of the transactions of the trailing seven days made from 22:00 up to
    07:59, rounded to a nearest integer: an integer in 0..100 that is at most
    one half away from the percentage (where the percentage falls on a half,
    which of its two neighbours the double arithmetic of the code returns is
    left open); it is 0 when the seven days hold no transaction; a
    transaction made from 08:00 up to 21:59 is not among the night
    transactions. *)
Theorem timingBase_rounded_night_share
    (now : Z) (patient : Patient) (recentTransactions : list Transaction) :
  timing (calculateRiskFactors now patient recentTransactions) =
    adjust (timingBase (since now 7 recentTransactions))
           (getDementiaRiskMultiplier (dementiaStage patient)) /\
  (since now 7 recentTransactions = [] ->
     timingBase (since now 7 recentTransactions) = ofZ 0) /\
  (since now 7 recentTransactions <> [] ->
     exists s : Z,
       timingBase (since now 7 recentTransactions) = ofZ s /\ 0 <= s <= 100 /\
       2 * s * Z.of_nat (length (since now 7 recentTransactions))
         - Z.of_nat (length (since now 7 recentTransactions))
         <= 200 * nightCount (since now 7 recentTransactions)
         <= 2 * s * Z.of_nat (length (since now 7 recentTransactions))
            + Z.of_nat (length (since now 7 recentTransactions))) /\
  (forall t : Transaction,
      nightClock (timestamp t) = false ->
      ~ In t (nightTransactions (since now 7 recentTransactions))).
Proof.
  set (week := since now 7 recentTransactions).
  split; [reflexivity|]. split; [|split].
  - intros Hw. rewrite Hw. reflexivity.
  - intros Hw. unfold timingBase.
    destruct (Nat.ltb_spec 0 (length week)) as [Hpos|Hlen];
      [|destruct week; [congruence | simpl in Hlen; lia]].
    rewrite rounded_percentage by exact Hpos.
    rewrite nightTransactions_clock. fold (nightCount week).
    set (n := nightCount week).
    set (w := Z.of_nat (length week)) in *.
    assert (Hn : 0 <= n <= w).
    { unfold n, nightCount, w. pose proof (List.filter_length_le
        (fun t : Transaction => nightClock (timestamp t)) week). lia. }
    exists ((200 * n + w) / (2 * w)). split; [reflexivity|].
    pose proof (Z.mul_div_le (200 * n + w) (2 * w) ltac:(lia)).
    pose proof (Z.mul_succ_div_gt (200 * n + w) (2 * w) ltac:(lia)).
    split; [split | split]; nia.
  - intros t Hout Hin. rewrite nightTransactions_clock in Hin.
    apply List.filter_In in Hin. destruct Hin as [_ Hin]. congruence.
Qed.

Lemma timingBase_rounded_night_share_witness :
  timingBase (since (atClock 20000 12 0) 7 [Sample.morningPayment]) = ofZ 100 /\
  nightClock (timestamp Sample.morningPayment) = true.
Proof.
  destruct (timingBase_rounded_night_share (atClock 20000 12 0) Sample.patient
              [Sample.morningPayment])
    as (_ & _ & H & _).
  destruct H as (s & E & Hs & Hlo & Hhi); [discriminate|].
  split; [|reflexivity].
  rewrite E. f_equal.
  change (2 * s * 1 - 1 <= 200 * 1) in Hlo.
  change (200 * 1 <= 2 * s * 1 + 1) in Hhi. lia.
Defined.

(** C8, as the specification words it, fails: a payment at 07:30 lies
    outside [22:00-07:00], yet it is counted as a night transaction, so that
    the timing base score of a week holding only this payment is 100 while
    the percentage of the week inside the window is 0. *)
Lemma half_past_seven_counts_as_night :
  since (atClock 20000 12 0) 7 [Sample.morningPayment] = [Sample.morningPayment] /\
  Spec.inNightWindow (timestamp Sample.morningPayment) = false /\
  nightTransactions [Sample.morningPayment] = [Sample.morningPayment] /\
  timingBase [Sample.morningPayment] = ofZ 100 /\
  Spec.nightPercentage [Sample.morningPayment] = Fin (0 # 1) /\
  timingBase [Sample.morningPayment] <> Spec.nightPercentage [Sample.morningPayment].
Proof.
  repeat split; try (vm_compute; reflexivity).
  vm_compute. discriminate.
Qed.

End TimingFactor.

(** * The dementia multiplier *)

Section DementiaMultiplier.

Import RiskProfilingService.

Lemma adjustedAt_mild (b : Z) : adjustedAt MILD b = ofZ (Z.min ((22 * b + 10) / 20) 100).
Proof.
  unfold adjustedAt. change (getDementiaRiskMultiplier (Some MILD)) with (Fin (11 # 10)).
  rewrite adjust_ofZ. do 3 f_equal. lia.
Qed.

Lemma adjustedAt_moderate (b : Z) : adjustedAt MODERATE b = ofZ (Z.min ((26 * b + 10) / 20) 100).
Proof.
  unfold adjustedAt. change (getDementiaRiskMultiplier (Some MODERATE)) with (Fin (13 # 10)).
  rewrite adjust_ofZ. do 3 f_equal. lia.
Qed.

Lemma adjustedAt_severe (b : Z) : adjustedAt SEVERE b = ofZ (Z.min ((30 * b + 10) / 20) 100).
Proof.
  unfold adjustedAt. change (getDementiaRiskMultiplier (Some SEVERE)) with (Fin (15 # 10)).
  rewrite adjust_ofZ. do 3 f_equal. lia.
Qed.

(** C9, as the code has it: for a base score in 0..100 the adjusted
    score does not decrease from mild to moderate to severe and never
    exceeds 100; it increases strictly at both steps exactly for the bases
    3..76, below which rounding and above which the cap at 100 make two
    stages meet. *)
Theorem adjusted_score_monotone (b : Z) :
  0 <= b <= 100 ->
  ge (adjustedAt MODERATE b) (adjustedAt MILD b) = true /\
  ge (adjustedAt SEVERE b) (adjustedAt MODERATE b) = true /\
  ge (ofZ 100) (adjustedAt SEVERE b) = true /\
  (gt (adjustedAt MODERATE b) (adjustedAt MILD b) = true /\
   gt (adjustedAt SEVERE b) (adjustedAt MODERATE b) = true <-> 3 <= b <= 76).
Proof.
  intros Hb. rewrite adjustedAt_mild, adjustedAt_moderate, adjustedAt_severe.
  rewrite !ge_ofZ, !gt_ofZ, !Z.leb_le, !Z.ltb_lt.
  Z.div_mod_to_equations. lia.
Qed.

Lemma adjusted_score_monotone_witness :
  gt (adjustedAt MODERATE 50) (adjustedAt MILD 50) = true /\
  gt (adjustedAt SEVERE 50) (adjustedAt MODERATE 50) = true.
Proof.
  apply (adjusted_score_monotone 50); lia.
Defined.

(** C9, as the specification words it, fails: the base score 0, which
    the timing factor takes when no transaction is made at night, gives 0 at
    all three stages, none of them capped; and the base score 85, which the
    frequency and amount factors take, gives 100 at both the moderate and the
    severe stage. *)
Lemma adjusted_score_not_strict :
  adjustedAt MILD 0 = ofZ 0 /\
  adjustedAt MODERATE 0 = ofZ 0 /\
  adjustedAt SEVERE 0 = ofZ 0 /\
  adjustedAt MODERATE 85 = ofZ 100 /\
  adjustedAt SEVERE 85 = ofZ 100 /\
  ~ (forall b : Z, 0 <= b < 100 ->
       gt (adjustedAt MODERATE b) (adjustedAt MILD b) = true /\
       gt (adjustedAt SEVERE b) (adjustedAt MODERATE b) = true).
Proof.
  repeat split; try reflexivity.
  intros H. destruct (H 0 ltac:(lia)) as [H1 _].
  vm_compute in H1. discriminate H1.
Qed.

End DementiaMultiplier.

(** * A week without transactions *)

Section EmptyWeek.

Import RiskProfilingService.

Lemma adjust_zero (stage : option string) :
  adjust (ofZ 0) (getDementiaRiskMultiplier stage) = ofZ 0.
Proof.
  destruct (getDementiaRiskMultiplier_cases stage) as [E | [E | [E | E]]];
    rewrite E; reflexivity.
Qed.

(** C10: when no supplied transaction lies in the trailing seven days,
    [assessRisk] returns a profile whose timing factor is 0 and whose total
    and factor scores are integers in 0..100, while the timing score of
    [AnomalyDetectionService.calculateRiskFactors] on the same transactions
    is [NaN], its division being unguarded. *)
Theorem empty_week_is_guarded_in_assessRisk_only
    (now patientId : Z) (patient : Patient) (recentTransactions : list Transaction) :
  since now 7 recentTransactions = [] ->
  timing (factors (assessRisk now patient recentTransactions)) = ofZ 0 /\
  intBetween 0 100 (totalScore (assessRisk now patient recentTransactions)) /\
  intBetween 0 100 (frequency (factors (assessRisk now patient recentTransactions))) /\
  intBetween 0 100 (amount (factors (assessRisk now patient recentTransactions))) /\
  intBetween 0 100 (location (factors (assessRisk now patient recentTransactions))) /\
  AnomalyDetectionService.rfTimingScore
    (AnomalyDetectionService.calculateRiskFactors now patientId recentTransactions) = NaN.
Proof.
  intros Hweek.
  destruct (assessRisk_between now patient recentTransactions) as (H0 & H1 & H2 & _ & H4).
  repeat split; try assumption.
  - unfold assessRisk, calculateRiskFactors. cbn [factors timing].
    rewrite Hweek. apply adjust_zero.
  - unfold AnomalyDetectionService.calculateRiskFactors.
    cbn [AnomalyDetectionService.rfTimingScore].
    unfold since in Hweek. rewrite Hweek. reflexivity.
Qed.

Lemma empty_week_is_guarded_in_assessRisk_only_witness :
  timing (factors (assessRisk Sample.now Sample.patient [])) = ofZ 0 /\
  AnomalyDetectionService.rfTimingScore
    (AnomalyDetectionService.calculateRiskFactors Sample.now 1 []) = NaN.
Proof.
  destruct (empty_week_is_guarded_in_assessRisk_only Sample.now 1 Sample.patient [] eq_refl)
    as (H1 & _ & _ & _ & _ & H2).
  split; [exact H1 | exact H2].
Defined.

End EmptyWeek.

(** * The alert policy *)

Section AlertPolicy.

Import AnomalyDetectionService Routes.

Variable formatAmount : string -> string.

(** The handler never looks at the settings it fetched. *)
Lemma postTransaction_ignores_settings now patientId transactionData store settings :
  postTransaction formatAmount now patientId transactionData store =
  postTransaction formatAmount now patientId transactionData
    {| recentTransactions := recentTransactions store;
       patient := patient store;
       alertSettings := settings;
       newId := newId store;
       newCreatedAt := newCreatedAt store |}.
Proof. reflexivity. Qed.

(** Every anomalous transaction of a known patient yields exactly one alert. *)
Lemma postTransaction_alerts_on_anomaly now patientId transactionData store p :
  patient store = Some p ->
  resIsAnomaly
    (detectAnomaly transactionData (recentTransactions store) (avgDailySpending p)) = true ->
  length (alertsCreated (postTransaction formatAmount now patientId transactionData store).2) = 1%nat.
Proof.
  intros Hp Ha. unfold postTransaction. rewrite Hp, Ha. reflexivity.
Qed.


End AlertPolicy.

Section AlertPolicyExamples.

Import AnomalyDetectionService Routes.



(** C1 fails on the code: with immediate alerts switched off in the
    patient's settings, the night withdrawal still makes the handler create
    an alert, although [shouldSendImmediateAlert] rejects it. *)
Theorem alert_created_with_immediate_alerts_off :
  immediateAlerts Sample.settingsOff = false /\
  RiskProfilingService.shouldSendImmediateAlert (ofZ 95) (ofZ 1200000)
    (Some Sample.settingsOff) = false /\
  exists alert,
    alertsCreated
      (postTransaction Sample.plainFormat Sample.now 1 Sample.nightWithdrawal
         (Sample.store (Some Sample.settingsOff))).2 = [alert] /\
    alertType alert = URGENT /\ severity alert = "high" /\ transactionId alert = Some 7.
Proof.
  split; [reflexivity|]. split; [reflexivity|].
  eexists. split; [vm_compute; reflexivity|].
  repeat split; reflexivity.
Qed.

End AlertPolicyExamples.

(** * Further properties of the anomaly scorer *)

Section ScorerDetails.

Import AnomalyDetectionService.

(** X1: an amount that does not parse as a number scores nothing for the
    amount and gives no reason, whatever the average and the history. *)
Theorem analyzeAmount_unparsable amount avgSpending recentTransactions :
  parseFloat amount = NaN ->
  analyzeAmount amount avgSpending recentTransactions = (0, []).
Proof.
  intros E. unfold analyzeAmount. rewrite E.
  destruct (gt avgSpending (ofZ 0)); destruct recentTransactions; reflexivity.
Qed.

Lemma analyzeAmount_unparsable_witness :
  analyzeAmount "n/a" (ofZ 100000) [Sample.morningPayment] = (0, []).
Proof. apply analyzeAmount_unparsable. reflexivity. Defined.

Lemma filter_and_length {A : Type} (f g : A -> bool) (l : list A) :
  (length (List.filter (fun x => f x && g x) l) <= length (List.filter g l))%nat.
Proof.
  induction l as [|x l IH]; simpl; [lia|].
  destruct (f x), (g x); simpl; lia.
Qed.

(** X2: the frequency score is 0, 15, 30, 40 or 55: the 25 points for
    repeated ATM withdrawals never come without the points for frequent
    transactions.  It is 0 when the history holds fewer than three
    transactions, and at most 30 for a candidate that is not an ATM
    withdrawal. *)
Theorem analyzeFrequency_values transaction recentTransactions :
  ((analyzeFrequency transaction recentTransactions).1 = 0 \/
   (analyzeFrequency transaction recentTransactions).1 = 15 \/
   (analyzeFrequency transaction recentTransactions).1 = 30 \/
   (analyzeFrequency transaction recentTransactions).1 = 40 \/
   (analyzeFrequency transaction recentTransactions).1 = 55) /\
  ((length recentTransactions < 3)%nat ->
   analyzeFrequency transaction recentTransactions = (0, [])) /\
  (type transaction <> "ATM" ->
   (analyzeFrequency transaction recentTransactions).1 <= 30).
Proof.
  unfold analyzeFrequency.
  set (last24Hours := timestamp transaction - 24 * msPerHour).
  pose proof (filter_and_length (fun t : Transaction => String.eqb (type t) "ATM")
                (fun t : Transaction => last24Hours <=? timestamp t) recentTransactions) as Hatm.
  pose proof (List.filter_length_le (fun t : Transaction => last24Hours <=? timestamp t)
                recentTransactions) as Hall.
  pose proof (List.filter_length_le
                (fun t : Transaction => String.eqb (type t) "ATM" && (last24Hours <=? timestamp t))
                recentTransactions) as Hall'.
  cbn beta in Hatm.
  set (recentCount :=
         length (List.filter (fun t : Transaction => last24Hours <=? timestamp t)
                             recentTransactions)) in *.
  set (atmCount :=
         length (List.filter
                   (fun t : Transaction =>
                      String.eqb (type t) "ATM" && (last24Hours <=? timestamp t))
                   recentTransactions)) in *.
  split; [|split].
  - destruct (Nat.leb_spec 5 recentCount); destruct (Nat.leb_spec 3 recentCount);
      destruct (String.eqb (type transaction) "ATM");
      try destruct (Nat.leb_spec 3 atmCount); simpl; auto; lia.
  - intros Hlen.
    destruct (Nat.leb_spec 5 recentCount); [lia|].
    destruct (Nat.leb_spec 3 recentCount); [lia|].
    destruct (String.eqb (type transaction) "ATM"); [|reflexivity].
    destruct (Nat.leb_spec 3 atmCount); [lia | reflexivity].
  - intros Hty. apply String.eqb_neq in Hty. rewrite Hty.
    destruct (Nat.leb_spec 5 recentCount); destruct (Nat.leb_spec 3 recentCount); simpl; lia.
Qed.

Lemma analyzeFrequency_values_witness :
  analyzeFrequency Sample.nightWithdrawal [Sample.morningPayment] = (0, []).
Proof.
  apply (analyzeFrequency_values Sample.nightWithdrawal [Sample.morningPayment]).
  simpl. lia.
Defined.

(** X3: the time of day scores 20 exactly from 23:00 up to 06:59 and 0
    otherwise; and whatever scores 20 there is also counted as a night
    transaction by the risk profiler, whose night is two hours longer. *)
Theorem analyzeTime_clock (d : Z) :
  ((analyzeTime d).1 = 20 <-> 23 * msPerHour <= msOfDay d \/ msOfDay d < 7 * msPerHour) /\
  ((analyzeTime d).1 = 0 <-> 7 * msPerHour <= msOfDay d < 23 * msPerHour) /\
  ((analyzeTime d).1 = 20 -> RiskProfilingService.isNightHour (getHours d) = true).
Proof.
  unfold analyzeTime, RiskProfilingService.isNightHour, getHours, msOfDay, msPerDay, msPerHour.
  destruct (Z.leb_spec 23 ((d / (60 * 60 * 1000)) mod 24));
    destruct (Z.leb_spec ((d / (60 * 60 * 1000)) mod 24) 6);
    destruct (Z.leb_spec 22 ((d / (60 * 60 * 1000)) mod 24));
    destruct (Z.leb_spec ((d / (60 * 60 * 1000)) mod 24) 7);
    cbn [orb fst];
    (split; [|split]; [split | split | ]); intros; try discriminate; try reflexivity;
    Z.div_mod_to_equations; lia.
Qed.

Lemma analyzeTime_clock_witness :
  RiskProfilingService.isNightHour (getHours (timestamp Sample.nightWithdrawal)) = true.
Proof.
  apply (analyzeTime_clock (timestamp Sample.nightWithdrawal)). reflexivity.
Defined.

End ScorerDetails.

(** * Further properties: merchant text and locations *)

Section TextDetails.

Import AnomalyDetectionService.

Lemma append_cons (x : ascii) (a b : string) : String x a +:+ b = String x (a +:+ b).
Proof. reflexivity. Qed.

Lemma append_nil (b : string) : EmptyString +:+ b = b.
Proof. reflexivity. Qed.

Lemma append_assoc' (a b c : string) : (a +:+ b) +:+ c = a +:+ (b +:+ c).
Proof.
  induction a as [|x a IH]; [reflexivity|].
  now rewrite !append_cons, IH.
Qed.

Lemma toLowerCase_append (a b : string) :
  toLowerCase (a +:+ b) = toLowerCase a +:+ toLowerCase b.
Proof.
  induction a as [|x a IH]; [reflexivity|].
  rewrite append_cons. simpl toLowerCase. now rewrite append_cons, IH.
Qed.

Lemma prefix_append (kw rest : string) : String.prefix kw (kw +:+ rest) = true.
Proof.
  induction kw as [|x kw IH]; [rewrite append_nil; destruct rest; reflexivity|].
  rewrite append_cons. simpl.
  destruct (ascii_dec x x); [exact IH | congruence].
Qed.

Lemma includes_unfold (s kw : string) :
  includes s kw =
  String.prefix kw s || match s with EmptyString => false | String _ r => includes r kw end.
Proof. destruct s; reflexivity. Qed.

(** A string includes whatever stands somewhere inside it. *)
Lemma includes_inside (before kw after : string) :
  includes (before +:+ kw +:+ after) kw = true.
Proof.
  induction before as [|x before IH].
  - rewrite append_nil, includes_unfold, prefix_append. reflexivity.
  - rewrite append_cons, includes_unfold, IH. apply orb_true_r.
Qed.

(** The keywords hold no capital letter. *)
Lemma keyword_lower (kw : string) : In kw HIGH_RISK_KEYWORDS -> toLowerCase kw = kw.
Proof.
  intros H. repeat (destruct H as [<- | H]; [reflexivity|]). destruct H.
Qed.

Lemma truthy_inside (before kw after : string) :
  kw <> EmptyString -> truthy (before +:+ kw +:+ after) = true.
Proof.
  intros Hne. destruct before; [|reflexivity]. rewrite append_nil.
  destruct kw; [congruence | reflexivity].
Qed.

Lemma keyword_nonempty (kw : string) : In kw HIGH_RISK_KEYWORDS -> kw <> EmptyString.
Proof.
  intros H. repeat (destruct H as [<- | H]; [discriminate|]). destruct H.
Qed.

Lemma orElse_truthy (s dflt : string) : truthy s = true -> orElse (Some s) dflt = s.
Proof. intros H. unfold orElse. now rewrite H. Qed.

(** X4: a high-risk keyword is found wherever it stands in the merchant
    or in the description, whatever surrounds it: the merchant score is then
    at least 25 and the first reason reports a keyword. *)
Theorem analyzeMerchant_keyword_anywhere merchant description kw before after :
  In kw HIGH_RISK_KEYWORDS ->
  merchant = Some (before +:+ kw +:+ after) \/
  description = Some (before +:+ kw +:+ after) ->
  25 <= (analyzeMerchant merchant description).1 /\
  exists found, In found HIGH_RISK_KEYWORDS /\
    hd_error (analyzeMerchant merchant description).2 = Some ("위험 키워드 감지: " +:+ found).
Proof.
  intros Hkw Hin. unfold analyzeMerchant.
  set (text := toLowerCase _).
  assert (Htext : includes text kw = true).
  { pose proof (truthy_inside before kw after (keyword_nonempty kw Hkw)) as Ht.
    unfold text. destruct Hin as [-> | ->].
    - rewrite (orElse_truthy _ _ Ht).
      rewrite !append_assoc', !toLowerCase_append, (keyword_lower kw Hkw).
      apply includes_inside.
    - rewrite (orElse_truthy _ _ Ht).
      rewrite <- (append_assoc' (orElse merchant EmptyString) " " _).
      rewrite <- (append_assoc' _ before _).
      rewrite !toLowerCase_append, (keyword_lower kw Hkw).
      apply includes_inside. }
  destruct (find (fun keyword => includes text keyword) HIGH_RISK_KEYWORDS) as [found|] eqn:Ef.
  - apply find_some in Ef. destruct Ef as [Hfound _].
    split; [|exists found; split; [exact Hfound | reflexivity]].
    cbn [fst]. split_ifs; simpl; lia.
  - pose proof (find_none _ _ Ef kw Hkw) as Hno. simpl in Hno. congruence.
Qed.

Lemma analyzeMerchant_keyword_anywhere_witness :
  25 <= (analyzeMerchant (Some "ABC 송금 서비스") None).1.
Proof.
  apply (analyzeMerchant_keyword_anywhere (Some "ABC 송금 서비스") None "송금" "ABC " " 서비스").
  - simpl. tauto.
  - left. reflexivity.
Defined.

(** Splitting always yields a token. *)
Lemma splitGo_nonempty (s cur : string) (inSep : bool) : splitGo s cur inSep <> [].
Proof.
  revert cur inSep. induction s as [|c s IH]; intros cur inSep; simpl; [discriminate|].
  destruct (isWhiteSpace c); [destruct inSep|]; try apply IH; discriminate.
Qed.

Lemma existsb_eqb_In (w : string) (ws : list string) :
  existsb (String.eqb w) ws = true <-> In w ws.
Proof.
  rewrite existsb_exists. split.
  - intros (x & Hx & E). apply String.eqb_eq in E. now subst.
  - intros H. exists w. split; [exact H | apply String.eqb_refl].
Qed.

Lemma isSimilarLocation_spec (loc1 loc2 : string) :
  isSimilarLocation loc1 loc2 = true <->
  exists w, In w (splitWhiteSpace (toLowerCase loc1)) /\
            In w (splitWhiteSpace (toLowerCase loc2)).
Proof.
  unfold isSimilarLocation. rewrite existsb_exists.
  split; intros (w & H1 & H2); exists w; (split; [exact H1|]); now apply existsb_eqb_In.
Qed.

Lemma isSimilarLocation_refl (loc : string) : isSimilarLocation loc loc = true.
Proof.
  apply isSimilarLocation_spec. unfold splitWhiteSpace.
  destruct (splitGo (toLowerCase loc) EmptyString false) as [|w ws] eqn:E.
  - now apply splitGo_nonempty in E.
  - exists w. simpl. auto.
Qed.

(** X5: two locations are similar when they share a word: the relation
    is symmetric and every location is similar to itself. *)
Theorem isSimilarLocation_symmetric_reflexive (loc1 loc2 : string) :
  isSimilarLocation loc1 loc2 = isSimilarLocation loc2 loc1 /\
  isSimilarLocation loc1 loc1 = true.
Proof.
  split.
  - apply eq_true_iff_eq. rewrite !isSimilarLocation_spec.
    split; intros (w & H1 & H2); exists w; auto.
  - apply isSimilarLocation_refl.
Qed.

(** X6: white space at the start of a location yields an empty first
    word, so that any two locations that start with a blank are similar,
    whatever they name. *)
Theorem isSimilarLocation_leading_blank (loc1 loc2 : string) :
  isSimilarLocation (" " +:+ loc1) (" " +:+ loc2) = true.
Proof.
  apply isSimilarLocation_spec. exists EmptyString.
  unfold splitWhiteSpace. rewrite !append_cons, !append_nil. simpl. auto.
Qed.

(** X7: a candidate whose location is one of the first ten locations
    of the history scores nothing for the location; and neither does any
    candidate while the history records no location. *)
Theorem analyzeLocation_known loc recentTransactions :
  In loc (take 10 (filterTruthy
                     (map (fun t : Transaction => location t) recentTransactions))) \/
  filterTruthy (map (fun t : Transaction => location t) recentTransactions) = [] ->
  analyzeLocation (Some loc) recentTransactions = (0, []).
Proof.
  intros H. unfold analyzeLocation.
  destruct (negb (truthy loc)); [reflexivity|].
  destruct H as [Hin | ->]; [|reflexivity].
  destruct (take 10 _) as [|l0 ls] eqn:E; [reflexivity|].
  assert (Hex : existsb (isSimilarLocation loc) (l0 :: ls) = true).
  { apply existsb_exists. exists loc. split; [exact Hin|].
    apply isSimilarLocation_refl. }
  rewrite Hex. reflexivity.
Qed.

Lemma analyzeLocation_known_witness :
  analyzeLocation (Some "Seoul Gangnam") [Sample.morningPayment; Cases.grocery] = (0, []).
Proof. apply analyzeLocation_known. left. left. reflexivity. Defined.

End TextDetails.

(** * Further properties: reasons and risk factors *)

Section ReasonsAndFactors.

Import AnomalyDetectionService.

Lemma truthy_append_l (a b : string) : truthy a = true -> truthy (a +:+ b) = true.
Proof. destruct a; [discriminate | reflexivity]. Qed.

Ltac explain :=
  unfold Explained; simpl;
  repeat split; intros; try lia; try discriminate; try reflexivity;
  rewrite ?truthy_append_l by reflexivity; reflexivity.

Lemma analyzeAmount_explained amount avgSpending recentTransactions :
  Explained (analyzeAmount amount avgSpending recentTransactions).
Proof. unfold analyzeAmount. split_ifs; explain. Qed.

Lemma analyzeFrequency_explained transaction recentTransactions :
  Explained (analyzeFrequency transaction recentTransactions).
Proof. unfold analyzeFrequency. split_ifs; explain. Qed.

Lemma analyzeTime_explained timestamp : Explained (analyzeTime timestamp).
Proof. unfold analyzeTime. split_ifs; explain. Qed.

Lemma analyzeMerchant_explained merchant description :
  Explained (analyzeMerchant merchant description).
Proof.
  unfold analyzeMerchant.
  destruct (find _ HIGH_RISK_KEYWORDS); split_ifs; explain.
Qed.

Lemma analyzeLocation_explained location recentTransactions :
  Explained (analyzeLocation location recentTransactions).
Proof.
  unfold analyzeLocation. destruct location as [loc|]; [|explain].
  destruct (negb (truthy loc)); [explain|].
  destruct (take 10 _); [explain|].
  destruct (negb _); explain.
Qed.

Lemma filter_truthy_all (l : list string) :
  forallb truthy l = true -> List.filter (fun r => truthy r) l = l.
Proof.
  induction l as [|x l IH]; simpl; [reflexivity|].
  intros H. apply andb_true_iff in H. destruct H as [Hx Hl].
  rewrite Hx. f_equal. now apply IH.
Qed.

Lemma Explained_add (p q : Partial) :
  Explained p -> Explained q -> Explained (p.1 + q.1, (p.2 ++ q.2)%list).
Proof.
  intros (Hp0 & Hp & Hpt) (Hq0 & Hq & Hqt). unfold Explained. cbn [fst snd].
  split; [lia|]. split.
  - split.
    + intros H. assert (p.1 = 0) by lia. assert (q.1 = 0) by lia.
      apply Hp in H0. apply Hq in H1. now rewrite H0, H1.
    + intros H. apply app_eq_nil in H. destruct H as [H1 H2].
      apply Hp in H1. apply Hq in H2. lia.
  - rewrite forallb_app. now rewrite Hpt, Hqt.
Qed.

(** X8: the reasons are the reasons of the five analyses, and there is
    none exactly when the risk score is 0; so every flagged transaction
    comes with at least one reason. *)
Theorem reasons_iff_score transaction recentTransactions patientAvgSpending :
  (reasons (detectAnomaly transaction recentTransactions patientAvgSpending) = [] <->
   resRiskScore (detectAnomaly transaction recentTransactions patientAvgSpending) = 0) /\
  (resIsAnomaly (detectAnomaly transaction recentTransactions patientAvgSpending) = true ->
   reasons (detectAnomaly transaction recentTransactions patientAvgSpending) <> []).
Proof.
  pose proof (Explained_add _ _
    (Explained_add _ _
      (Explained_add _ _
        (Explained_add _ _
          (analyzeAmount_explained (amount transaction) patientAvgSpending recentTransactions)
          (analyzeFrequency_explained transaction recentTransactions))
        (analyzeTime_explained (timestamp transaction)))
      (analyzeMerchant_explained (merchant transaction) (description transaction)))
    (analyzeLocation_explained (location transaction) recentTransactions)) as (H0 & H & Ht).
  cbn [fst snd] in H0, H, Ht.
  assert (Hr : reasons (detectAnomaly transaction recentTransactions patientAvgSpending) = [] <->
               resRiskScore (detectAnomaly transaction recentTransactions patientAvgSpending) = 0).
  { rewrite detectAnomaly_score_eq. unfold detectAnomaly. cbn [reasons].
    rewrite <- !app_assoc in Ht, H.
    rewrite filter_truthy_all by exact Ht.
    rewrite <- H. lia. }
  split; [exact Hr|].
  intros Hflag Hnil. apply Hr in Hnil.
  rewrite detectAnomaly_flag_eq, Hnil in Hflag. discriminate.
Qed.

Lemma reasons_iff_score_witness :
  reasons (detectAnomaly Sample.nightWithdrawal [] (ofZ 100000)) <> [].
Proof.
  apply (reasons_iff_score Sample.nightWithdrawal [] (ofZ 100000)). reflexivity.
Defined.

End ReasonsAndFactors.

(** * Further properties: the recomputed risk factors *)

Section RecomputedFactors.

Import AnomalyDetectionService.

Lemma min_Fin_100 (q : Q) :
  (0 <= q)%Q ->
  exists q', min (Fin q) (ofZ 100) = Fin q' /\ (inject_Z 0 <= q')%Q /\ (q' <= inject_Z 100)%Q.
Proof.
  intros Hq. unfold min, ge, ofZ.
  destruct (Qle_bool (inject_Z 100) q) eqn:E.
  - exists (inject_Z 100). repeat split; [discriminate | apply Qle_refl].
  - exists q. repeat split; [exact Hq|].
    destruct (Qlt_le_dec q (inject_Z 100)) as [Hlt|Hge]; [now apply Qlt_le_weak|].
    apply Qle_bool_iff in Hge. congruence.
Qed.

Lemma round_min_100 (q : Q) :
  (0 <= q)%Q -> intBetween 0 100 (round (min (Fin q) (ofZ 100))).
Proof.
  intros Hq. destruct (min_Fin_100 q Hq) as (q' & -> & Hlo & Hhi).
  destruct (round_between q' 0 100 Hlo Hhi) as (z & -> & Hz).
  now apply intBetween_ofZ.
Qed.

Lemma inject_nat_nonneg (n : nat) : (0 <= inject_Z (Z.of_nat n))%Q.
Proof. change 0%Q with (inject_Z 0). rewrite <- Zle_Qle. lia. Qed.

(** The sum of numbers that are finite and not negative is so too. *)
Lemma sum_nonNegative (xs : list num) : Forall nonNegative xs -> nonNegative (sum xs).
Proof.
  unfold sum. assert (H0 : nonNegative (ofZ 0)) by (exists 0%Q; split; [reflexivity | apply Qle_refl]).
  revert H0. generalize (ofZ 0) as acc.
  induction xs as [|x xs IH]; intros acc Hacc Hxs; simpl; [exact Hacc|].
  inversion Hxs as [|? ? Hx Hrest]; subst.
  apply IH; [|exact Hrest].
  destruct Hacc as (a & -> & Ha), Hx as (b & -> & Hb).
  exists (a + b)%Q. split; [reflexivity|]. lra.
Qed.

Lemma recomputed_between (now patientId : Z) (recentTransactions : list Transaction) :
  intBetween 0 100
    (rfFrequencyScore (calculateRiskFactors now patientId recentTransactions)) /\
  intBetween 0 100
    (rfLocationScore (calculateRiskFactors now patientId recentTransactions)) /\
  (RiskProfilingService.since now 7 recentTransactions <> [] ->
   intBetween 0 100
     (rfTimingScore (calculateRiskFactors now patientId recentTransactions))).
Proof.
  unfold calculateRiskFactors, RiskProfilingService.since.
  cbn [rfFrequencyScore rfLocationScore rfTimingScore].
  set (week := List.filter _ recentTransactions).
  split; [|split].
  - apply round_min_100. pose proof (inject_nat_nonneg (length week)).
    unfold Qdiv. change (/ inject_Z 7)%Q with (1 # 7)%Q. change (inject_Z 20) with 20%Q. lra.
  - apply round_min_100.
    pose proof (inject_nat_nonneg
                  (distinctCount
                     (filterTruthy (map (fun t : Transaction => location t) week)))).
    change (inject_Z 15) with 15%Q. lra.
  - intros Hne.
    destruct (percentage_between
                (length (List.filter
                   (fun t : Transaction => isNightHour (getHours (timestamp t))) week))
                (length week)) as (q & -> & Hlo & Hhi).
    + apply List.filter_length_le.
    + destruct week; [congruence | simpl; lia].
    + destruct (round_between q 0 100 Hlo Hhi) as (z & -> & Hz). now apply intBetween_ofZ.
Qed.

(** The timing score of a week without transactions. *)
Lemma recomputed_timing_empty (now patientId : Z) (recentTransactions : list Transaction) :
  RiskProfilingService.since now 7 recentTransactions = [] ->
  rfTimingScore (calculateRiskFactors now patientId recentTransactions) = NaN.
Proof.
  unfold calculateRiskFactors, RiskProfilingService.since.
  cbn [rfTimingScore]. intros ->. reflexivity.
Qed.

(** X9: of the risk factors recomputed by the anomaly service, the
    frequency and location scores are always integers in 0..100; the timing
    score is such an integer when some transaction lies in the trailing
    seven days, and [NaN] exactly when none does. *)
Theorem recomputed_factor_ranges (now patientId : Z) (recentTransactions : list Transaction) :
  intBetween 0 100
    (rfFrequencyScore (calculateRiskFactors now patientId recentTransactions)) /\
  intBetween 0 100
    (rfLocationScore (calculateRiskFactors now patientId recentTransactions)) /\
  (RiskProfilingService.since now 7 recentTransactions <> [] ->
   intBetween 0 100
     (rfTimingScore (calculateRiskFactors now patientId recentTransactions))) /\
  (rfTimingScore (calculateRiskFactors now patientId recentTransactions) = NaN <->
   RiskProfilingService.since now 7 recentTransactions = []).
Proof.
  destruct (recomputed_between now patientId recentTransactions) as (Hf & Hl & Ht).
  split; [exact Hf|]. split; [exact Hl|]. split; [exact Ht|].
  split.
  - intros HNaN.
    destruct (RiskProfilingService.since now 7 recentTransactions) as [|t week] eqn:E;
      [reflexivity|].
    destruct Ht as (z & Ez & _); [discriminate|].
    rewrite Ez in HNaN. discriminate.
  - apply recomputed_timing_empty.
Qed.

Lemma recomputed_factor_ranges_witness :
  intBetween 0 100
    (rfTimingScore (calculateRiskFactors Sample.now 1 [Cases.grocery])).
Proof.
  apply (recomputed_factor_ranges Sample.now 1 [Cases.grocery]). discriminate.
Defined.

End RecomputedFactors.

(** * Further properties of the transaction handler *)

Section HandlerDetails.

Import AnomalyDetectionService Routes.

Variable formatAmount : string -> string.

Lemma Forall_filter' {A : Type} (P : A -> Prop) (f : A -> bool) (l : list A) :
  Forall P l -> Forall P (List.filter f l).
Proof.
  rewrite !List.Forall_forall. intros H x Hx. apply List.filter_In in Hx. apply H, Hx.
Qed.

Lemma average_between (a b c d : Z) :
  0 <= a <= 100 -> 0 <= b <= 100 -> 0 <= c <= 100 -> 0 <= d <= 100 ->
  intBetween 0 100
    (round (div (add (add (add (ofZ a) (ofZ b)) (ofZ c)) (ofZ d)) (ofZ 4))).
Proof.
  intros Ha Hb Hc Hd. unfold ofZ, add, div.
  replace (Qeq_bool (inject_Z 4) 0) with false by reflexivity.
  assert (Qa : (0 <= inject_Z a)%Q /\ (inject_Z a <= 100)%Q)
    by (change 0%Q with (inject_Z 0); change 100%Q with (inject_Z 100);
        rewrite <- !Zle_Qle; lia).
  assert (Qb : (0 <= inject_Z b)%Q /\ (inject_Z b <= 100)%Q)
    by (change 0%Q with (inject_Z 0); change 100%Q with (inject_Z 100);
        rewrite <- !Zle_Qle; lia).
  assert (Qc : (0 <= inject_Z c)%Q /\ (inject_Z c <= 100)%Q)
    by (change 0%Q with (inject_Z 0); change 100%Q with (inject_Z 100);
        rewrite <- !Zle_Qle; lia).
  assert (Qd : (0 <= inject_Z d)%Q /\ (inject_Z d <= 100)%Q)
    by (change 0%Q with (inject_Z 0); change 100%Q with (inject_Z 100);
        rewrite <- !Zle_Qle; lia).
  destruct Qa, Qb, Qc, Qd.
  destruct (round_between
              ((inject_Z a + inject_Z b + inject_Z c + inject_Z d) / inject_Z 4) 0 100)
    as (z & -> & Hz).
  - unfold Qdiv. change (/ inject_Z 4)%Q with (1 # 4)%Q. change (inject_Z 0) with 0%Q. lra.
  - unfold Qdiv. change (/ inject_Z 4)%Q with (1 # 4)%Q. change (inject_Z 100) with 100%Q. lra.
  - now apply intBetween_ofZ.
Qed.

(** The amount score of a non-empty week of amounts that are not negative. *)
Lemma recomputed_amount_between (week : list Transaction) :
  week <> [] ->
  Forall (fun t : Transaction => nonNegative (parseFloat (amount t))) week ->
  intBetween 0 100
    (round (min (div (if (0 <? length (map (fun t : Transaction => parseFloat (amount t)) week))%nat
                      then div (sum (map (fun t : Transaction => parseFloat (amount t)) week))
                               (ofNat (length (map (fun t : Transaction => parseFloat (amount t)) week)))
                      else ofZ 0)
                     (ofZ 10000))
                (ofZ 100))).
Proof.
  intros Hne Hall.
  assert (Hsum : nonNegative (sum (map (fun t : Transaction => parseFloat (amount t)) week))).
  { apply sum_nonNegative. rewrite List.Forall_forall in *. intros x Hx.
    apply in_map_iff in Hx. destruct Hx as (t & <- & Ht). now apply Hall. }
  destruct Hsum as (s & -> & Hs).
  rewrite length_map. destruct week as [|t week']; [congruence|].
  cbn [length Nat.ltb Nat.leb].
  unfold ofNat, ofZ, div.
  replace (Qeq_bool (inject_Z (Z.of_nat (S (length week')))) 0) with false by reflexivity.
  replace (Qeq_bool (inject_Z 10000) 0) with false by reflexivity.
  apply round_min_100.
  assert (Hk : (0 < inject_Z (Z.of_nat (S (length week'))))%Q).
  { change 0%Q with (inject_Z 0). rewrite <- Zlt_Qlt. lia. }
  unfold Qdiv. change (/ inject_Z 10000)%Q with (1 # 10000)%Q.
  apply Qinv_lt_0_compat in Hk.
  assert (0 <= s * / inject_Z (Z.of_nat (S (length week'))))%Q
    by (apply Qmult_le_0_compat; [exact Hs | now apply Qlt_le_weak]).
  lra.
Qed.

Lemma recomputed_all_between (now patientId : Z) (transactions : list Transaction) :
  RiskProfilingService.since now 7 transactions <> [] ->
  Forall (fun t : Transaction => nonNegative (parseFloat (amount t))) transactions ->
  intBetween 0 100 (rfFrequencyScore (calculateRiskFactors now patientId transactions)) /\
  intBetween 0 100 (rfAmountScore (calculateRiskFactors now patientId transactions)) /\
  intBetween 0 100 (rfTimingScore (calculateRiskFactors now patientId transactions)) /\
  intBetween 0 100 (rfLocationScore (calculateRiskFactors now patientId transactions)) /\
  intBetween 0 100 (averageScore (calculateRiskFactors now patientId transactions)).
Proof.
  intros Hne Hall.
  destruct (recomputed_between now patientId transactions) as (Hf & Hl & Ht).
  specialize (Ht Hne).
  assert (Ha : intBetween 0 100
                 (rfAmountScore (calculateRiskFactors now patientId transactions))).
  { unfold calculateRiskFactors. cbn [rfAmountScore].
    apply recomputed_amount_between; [exact Hne | now apply Forall_filter']. }
  repeat split; try assumption.
  unfold averageScore.
  destruct Hf as (a & -> & ?), Ha as (b & -> & ?), Ht as (c & -> & ?), Hl as (d & -> & ?).
  now apply average_between.
Qed.

Lemma since_app (now days : Z) (l1 l2 : list Transaction) :
  RiskProfilingService.since now days (l1 ++ l2)%list =
  (RiskProfilingService.since now days l1 ++ RiskProfilingService.since now days l2)%list.
Proof. unfold RiskProfilingService.since. apply List.filter_app. Qed.

Lemma filter_none_before (limit : Z) (l : list Transaction) :
  (forall t : Transaction, In t l -> timestamp t < limit) ->
  List.filter (fun t : Transaction => limit <=? timestamp t) l = [].
Proof.
  induction l as [|t l IH]; intros H; [reflexivity|].
  cbn [List.filter]. destruct (Z.leb_spec limit (timestamp t)).
  - specialize (H t (or_introl eq_refl)). lia.
  - apply IH. intros t' Ht'. apply H. now right.
Qed.

(** X10: when the flagged transaction is dated within the seven days
    before the recomputation and no amount of it or of the fetched history
    is negative or unparsable, the four scores and the total of the risk
    assessment the handler writes are integers in 0..100. *)
Theorem snapshot_scores_in_range now patientId transactionData store p row :
  patient store = Some p ->
  now - 7 * 24 * 60 * 60 * 1000 <= timestamp transactionData ->
  nonNegative (parseFloat (amount transactionData)) ->
  (forall t : Transaction,
      In t (recentTransactions store) -> nonNegative (parseFloat (amount t))) ->
  In (CreateRiskAssessment row)
     (postTransaction formatAmount now patientId transactionData store).2 ->
  intBetween 0 100 (frequencyScore row) /\
  intBetween 0 100 (amountScore row) /\
  intBetween 0 100 (timingScore row) /\
  intBetween 0 100 (locationScore row) /\
  intBetween 0 100 (totalScore row).
Proof.
  intros Hp Hts Hamt Hhist Hin. unfold postTransaction in Hin. rewrite Hp in Hin.
  set (result := detectAnomaly transactionData (recentTransactions store)
                   (avgDailySpending p)) in *.
  destruct (resIsAnomaly result); cbn [snd] in Hin.
  - destruct Hin as [Hin | [Hin | [Hin | [Hin | []]]]]; try discriminate Hin.
    injection Hin as <-. cbn [frequencyScore amountScore timingScore locationScore totalScore].
    apply recomputed_all_between.
    + rewrite since_app. intros Hnil. apply app_eq_nil in Hnil. destruct Hnil as [_ Hnil].
      unfold RiskProfilingService.since in Hnil. cbn [List.filter] in Hnil.
      cbn [createdRow withAnomaly data timestamp] in Hnil.
      destruct (Z.leb_spec (now - 7 * 24 * 60 * 60 * 1000) (timestamp transactionData));
        [discriminate | lia].
    + apply Forall_app. split.
      * apply List.Forall_forall. exact Hhist.
      * constructor; [exact Hamt | constructor].
  - destruct Hin as [Hin | []]. discriminate Hin.
Qed.


(** The writes the handler issues, one after the other, when neither the
    flagged transaction nor any of the fetched history is dated within the
    seven days before the recomputation. *)
Lemma stale_writes_issued now patientId transactionData store p :
  patient store = Some p ->
  resIsAnomaly
    (detectAnomaly transactionData (recentTransactions store) (avgDailySpending p)) = true ->
  timestamp transactionData < now - 7 * 24 * 60 * 60 * 1000 ->
  (forall t : Transaction,
      In t (recentTransactions store) -> timestamp t < now - 7 * 24 * 60 * 60 * 1000) ->
  exists inserted alert row,
    (postTransaction formatAmount now patientId transactionData store).2 =
      [CreateTransaction inserted; CreateAlert alert;
       CreateRiskAssessment row; UpdatePatient patientId LOW_RISK] /\
    timingScore row = NaN /\ totalScore row = NaN.
Proof.
  intros Hp Hflag Hts Hhist. unfold postTransaction. rewrite Hp, Hflag.
  set (inserted := withAnomaly transactionData _).
  set (widened := (recentTransactions store ++ [createdRow store inserted])%list).
  assert (Hweek : RiskProfilingService.since now 7 widened = []).
  { unfold widened. rewrite since_app. unfold RiskProfilingService.since.
    replace (List.filter _ (recentTransactions store)) with (@nil Transaction).
    - cbn [List.filter app createdRow data]. unfold inserted. cbn [withAnomaly timestamp].
      destruct (Z.leb_spec (now - 7 * 24 * 60 * 60 * 1000) (timestamp transactionData));
        [lia | reflexivity].
    - symmetry. now apply filter_none_before. }
  assert (Htime : rfTimingScore (calculateRiskFactors now patientId widened) = NaN)
    by (now apply recomputed_timing_empty).
  assert (Htotal : averageScore (calculateRiskFactors now patientId widened) = NaN).
  { unfold averageScore. rewrite Htime.
    destruct (add (rfFrequencyScore _) (rfAmountScore _)); reflexivity. }
  do 3 eexists. split; [|split].
  - cbn [snd]. rewrite Htotal. reflexivity.
  - exact Htime.
  - reflexivity.
Qed.


(** X11: when neither the flagged transaction nor any of the fetched
    history is dated within the seven days before the recomputation, the
    risk assessment the handler submits has [NaN] for its timing score and
    its total.  With a database that carries out the insertion of the
    transaction and of the alert and refuses an assessment whose total is
    [NaN], the request ends in the catch branch: the transaction and the
    alert stay stored, no assessment is stored and the risk level of the
    patient is left as it was. *)
Theorem stale_request_fails_after_alert (accepts : StorageWrite -> bool)
    now patientId transactionData store p :
  patient store = Some p ->
  resIsAnomaly
    (detectAnomaly transactionData (recentTransactions store) (avgDailySpending p)) = true ->
  timestamp transactionData < now - 7 * 24 * 60 * 60 * 1000 ->
  (forall t : Transaction,
      In t (recentTransactions store) -> timestamp t < now - 7 * 24 * 60 * 60 * 1000) ->
  (forall row, accepts (CreateTransaction row) = true) ->
  (forall alert, accepts (CreateAlert alert) = true) ->
  (forall row, totalScore row = NaN -> accepts (CreateRiskAssessment row) = false) ->
  exists inserted alert row,
    In (CreateRiskAssessment row)
       (postTransaction formatAmount now patientId transactionData store).2 /\
    timingScore row = NaN /\ totalScore row = NaN /\
    Request.postTransactionCaught accepts formatAmount now patientId transactionData store =
      (Request.Failed, [CreateTransaction inserted; CreateAlert alert]).
Proof.
  intros Hp Hflag Hts Hhist Htx Halert Hrow.
  destruct (stale_writes_issued now patientId transactionData store p Hp Hflag Hts Hhist)
    as (inserted & alert & row & Ew & Htime & Htotal).
  exists inserted, alert, row. rewrite Ew.
  split; [right; right; left; reflexivity|]. split; [exact Htime|]. split; [exact Htotal|].
  unfold Request.postTransactionCaught. rewrite Ew.
  cbn [Request.carryOut]. rewrite Htx, Halert, (Hrow row Htotal). reflexivity.
Qed.

End HandlerDetails.

Section HandlerDetailsExamples.

Import AnomalyDetectionService Routes.

Lemma snapshot_scores_in_range_witness :
  intBetween 0 100
    (totalScore {| assessedPatientId := 1;
                   frequencyScore := ofZ 3; amountScore := ofZ 100;
                   timingScore := ofZ 100; locationScore := ofZ 0;
                   totalScore := ofZ 51 |}).
Proof.
  apply (snapshot_scores_in_range Sample.plainFormat Sample.now 1 Sample.nightWithdrawal
           (Sample.store None) Sample.patient _ eq_refl).
  - vm_compute. discriminate.
  - exists (1200000 # 1)%Q. split; [vm_compute; reflexivity | discriminate].
  - intros t [].
  - vm_compute. right. right. left. reflexivity.
Defined.

Lemma stale_request_fails_after_alert_witness :
  exists inserted alert,
    Request.postTransactionCaught Cases.integerScores Sample.plainFormat Sample.now 1
      Cases.backDated (Sample.store None) =
    (Request.Failed, [CreateTransaction inserted; CreateAlert alert]).
Proof.
  destruct (stale_request_fails_after_alert Sample.plainFormat Cases.integerScores Sample.now 1
              Cases.backDated (Sample.store None) Sample.patient eq_refl eq_refl)
    as (inserted & alert & row & _ & _ & _ & E).
  - reflexivity.
  - intros t [].
  - reflexivity.
  - reflexivity.
  - intros row H. unfold Cases.integerScores. rewrite H. reflexivity.
  - exists inserted, alert. exact E.
Defined.

End HandlerDetailsExamples.

(** * Further properties: what the handler writes *)

Section HandlerWrites.

Import AnomalyDetectionService Routes.

Variable formatAmount : string -> string.

Lemma detectAnomaly_score_range transaction recentTransactions patientAvgSpending :
  0 <= resRiskScore (detectAnomaly transaction recentTransactions patientAvgSpending) <= 100.
Proof.
  rewrite detectAnomaly_score_eq.
  pose proof (analyzeAmount_score (amount transaction) patientAvgSpending recentTransactions).
  pose proof (analyzeFrequency_score transaction recentTransactions).
  pose proof (analyzeTime_score (timestamp transaction)).
  pose proof (analyzeMerchant_score (merchant transaction) (description transaction)).
  pose proof (analyzeLocation_score (location transaction) recentTransactions).
  lia.
Qed.

Lemma CreateAlert_inj (a b : InsertAlert) : CreateAlert a = CreateAlert b -> a = b.
Proof. intros H. now injection H. Qed.

Lemma CreateRiskAssessment_inj (a b : InsertRiskAssessment) :
  CreateRiskAssessment a = CreateRiskAssessment b -> a = b.
Proof. intros H. now injection H. Qed.


(** X13: the handler writes an alert, a risk assessment or a patient
    update only for a flagged transaction of a known patient.  For an unknown
    patient it answers that the patient is not found and writes nothing;
    for a transaction that is not flagged it writes the transaction alone. *)
Theorem writes_by_case now patientId transactionData store :
  (patient store = None ->
   postTransaction formatAmount now patientId transactionData store = (NotFound, [])) /\
  (forall p, patient store = Some p ->
     resIsAnomaly (detectAnomaly transactionData (recentTransactions store)
                     (avgDailySpending p)) = false ->
     exists row,
       (postTransaction formatAmount now patientId transactionData store).2 =
         [CreateTransaction row]) /\
  (alertsCreated (postTransaction formatAmount now patientId transactionData store).2 <> [] ->
   exists p, patient store = Some p /\
     resIsAnomaly (detectAnomaly transactionData (recentTransactions store)
                     (avgDailySpending p)) = true).
Proof.
  unfold postTransaction. split; [|split].
  - intros ->. reflexivity.
  - intros p -> ->. eexists. reflexivity.
  - destruct (patient store) as [p|]; [|intros H; now elim H].
    destruct (resIsAnomaly _) eqn:E; [intros _; now exists p|].
    intros H. now elim H.
Qed.

(** X14: the alert written for a flagged transaction names the patient
    of the request and the key of the stored transaction, and its type and
    severity follow the risk score: urgent and high from 70, high-risk and
    high from 50 to 69, medium-risk and medium from 30 to 49.  Its severity
    is never low. *)
Theorem alert_follows_score now patientId transactionData store alert :
  In (CreateAlert alert)
     (postTransaction formatAmount now patientId transactionData store).2 ->
  exists p score,
    patient store = Some p /\
    score = resRiskScore (detectAnomaly transactionData (recentTransactions store)
                            (avgDailySpending p)) /\
    30 <= score <= 100 /\
    alertPatientId alert = patientId /\
    transactionId alert = Some (newId store) /\
    (70 <= score -> alertType alert = URGENT /\ severity alert = "high") /\
    (50 <= score < 70 -> alertType alert = HIGH_RISK /\ severity alert = "high") /\
    (score < 50 -> alertType alert = MEDIUM_RISK /\ severity alert = "medium") /\
    severity alert <> "low".
Proof.
  unfold postTransaction. destruct (patient store) as [p|]; [|intros []].
  pose proof (detectAnomaly_score_range transactionData (recentTransactions store)
                (avgDailySpending p)) as Hrange.
  pose proof (detectAnomaly_flag_eq transactionData (recentTransactions store)
                (avgDailySpending p)) as Hflag.
  set (result := detectAnomaly transactionData (recentTransactions store)
                   (avgDailySpending p)) in *.
  destruct (resIsAnomaly result) eqn:E; cbn [snd].
  - intros [Hin | [Hin | [Hin | [Hin | []]]]]; try discriminate Hin.
    apply CreateAlert_inj in Hin. subst alert. exists p, (resRiskScore result).
    symmetry in Hflag. apply Z.leb_le in Hflag.
    cbn [alertPatientId transactionId alertType severity createdRow id].
    unfold alertTypeOf.
    split; [reflexivity|]. split; [reflexivity|]. split; [lia|].
    split; [reflexivity|]. split; [reflexivity|].
    destruct (Z.leb_spec 70 (resRiskScore result));
      [|destruct (Z.leb_spec 50 (resRiskScore result))];
      (split; [|split; [|split]]);
      try (intros; lia); try (intros; split; reflexivity); vm_compute; discriminate.
  - intros [Hin | []]. discriminate Hin.
Qed.

End HandlerWrites.

Section HandlerWritesExamples.

Import AnomalyDetectionService Routes.


Lemma writes_by_case_witness :
  exists row,
    (postTransaction Sample.plainFormat Sample.now 1 Cases.smallPayment
       (Sample.store None)).2 = [CreateTransaction row].
Proof.
  apply (writes_by_case Sample.plainFormat Sample.now 1 Cases.smallPayment
           (Sample.store None)) with (p := Sample.patient); reflexivity.
Defined.

Lemma alert_follows_score_witness :
  exists alert,
    In (CreateAlert alert)
       (postTransaction Sample.plainFormat Sample.now 1 Sample.nightWithdrawal
          (Sample.store None)).2 /\
    alertType alert = URGENT /\ severity alert = "high".
Proof.
  assert (Hw : exists alert,
             In (CreateAlert alert)
                (postTransaction Sample.plainFormat Sample.now 1 Sample.nightWithdrawal
                   (Sample.store None)).2)
    by (eexists; vm_compute; right; left; reflexivity).
  destruct Hw as [alert Hin]. exists alert. split; [exact Hin|].
  destruct (alert_follows_score Sample.plainFormat Sample.now 1 Sample.nightWithdrawal
              (Sample.store None) alert Hin)
    as (p & score & Hp & Hs & _ & _ & _ & H70 & _).
  apply H70. injection Hp as <-. rewrite Hs. vm_compute. discriminate.
Defined.

End HandlerWritesExamples.

(** * Further properties of the risk profiler *)

Section ProfilerDetails.

Import RiskProfilingService.

Lemma gt_per_day (n : nat) (k : Z) :
  gt (div (ofNat n) (ofZ 7)) (ofZ k) = (7 * k <? Z.of_nat n).
Proof.
  unfold ofNat, ofZ, div.
  replace (Qeq_bool (inject_Z 7) 0) with false by reflexivity.
  unfold gt, Qle_bool, Qdiv, Qmult, Qinv, inject_Z. simpl Qnum. simpl Qden.
  change (Z.pos (1 * 7)) with 7.
  destruct (Z.leb_spec (Z.of_nat n * 1 * 1) (k * 7)), (Z.ltb_spec (7 * k) (Z.of_nat n));
    simpl; try reflexivity; lia.
Qed.

(** X15: the frequency base score by the number of transactions of the
    week: 85 above 35, 60 from 22 to 35, 35 from 15 to 21, and 15 up to 14. *)
Theorem frequencyBase_by_count (week : list Transaction) :
  ((35 < length week)%nat -> frequencyBase week = ofZ 85) /\
  ((21 < length week <= 35)%nat -> frequencyBase week = ofZ 60) /\
  ((14 < length week <= 21)%nat -> frequencyBase week = ofZ 35) /\
  ((length week <= 14)%nat -> frequencyBase week = ofZ 15).
Proof.
  unfold frequencyBase. rewrite !gt_per_day.
  destruct (Z.ltb_spec (7 * 5) (Z.of_nat (length week)));
    destruct (Z.ltb_spec (7 * 3) (Z.of_nat (length week)));
    destruct (Z.ltb_spec (7 * 2) (Z.of_nat (length week)));
    repeat split; intros; try reflexivity; lia.
Qed.

Lemma frequencyBase_by_count_witness : frequencyBase Sample.threeADay = ofZ 35.
Proof. apply (frequencyBase_by_count Sample.threeADay). simpl. lia. Defined.

(** X16: a transaction without a location, or whose location already
    occurs in the week, leaves the location base score of the week as it
    is. *)
Theorem locationBase_ignores_known (t : Transaction) (week : list Transaction) :
  truthyOpt (Schema.location t) = false \/
  (exists loc, Schema.location t = Some loc /\
     In loc (filterTruthy (map (fun t : Transaction => Schema.location t) week))) ->
  locationBase (t :: week) = locationBase week.
Proof.
  intros H. unfold locationBase.
  replace (distinctCount (filterTruthy (map (fun t0 : Transaction => Schema.location t0) (t :: week))))
    with (distinctCount (filterTruthy (map (fun t0 : Transaction => Schema.location t0) week)));
    [reflexivity|].
  unfold distinctCount, filterTruthy. cbn [map omap list_omap].
  destruct H as [H | (loc & -> & Hin)].
  - unfold truthyOpt in H. destruct (Schema.location t) as [s|]; [|reflexivity].
    rewrite H. reflexivity.
  - destruct (truthy loc); [|reflexivity].
    cbn [list_to_set]. f_equal. apply leibniz_equiv.
    apply list_elem_of_In in Hin. set_solver.
Qed.

Lemma locationBase_ignores_known_witness :
  locationBase [Cases.grocery; Cases.grocery] = locationBase [Cases.grocery].
Proof.
  apply locationBase_ignores_known. right. exists "Seoul Gangnam".
  split; [reflexivity | left; reflexivity].
Defined.

Lemma adjust_one (b : Z) : b <= 100 -> adjust (ofZ b) (ofZ 1) = ofZ b.
Proof.
  intros Hb. change (ofZ 1) with (Fin (1 # 1)). rewrite adjust_ofZ. f_equal.
  rewrite Z.min_l; Z.div_mod_to_equations; lia.
Qed.

(** X17: for a patient whose dementia stage is missing, empty or none
    of the three known stages, whatever the case of its letters, the four
    factors are the base scores themselves. *)
Theorem factors_without_stage (now : Z) (patient : Patient)
    (recentTransactions : list Transaction) :
  toLowerCase (orElse (dementiaStage patient) EmptyString) <> MILD ->
  toLowerCase (orElse (dementiaStage patient) EmptyString) <> MODERATE ->
  toLowerCase (orElse (dementiaStage patient) EmptyString) <> SEVERE ->
  calculateRiskFactors now patient recentTransactions =
    {| frequency := frequencyBase (since now 7 recentTransactions);
       amount := amountBase patient (since now 7 recentTransactions);
       timing := timingBase (since now 7 recentTransactions);
       location := locationBase (since now 7 recentTransactions) |}.
Proof.
  intros H1 H2 H3. unfold calculateRiskFactors.
  assert (Hm : getDementiaRiskMultiplier (dementiaStage patient) = ofZ 1).
  { unfold getDementiaRiskMultiplier. destruct (negb _); [reflexivity|].
    apply String.eqb_neq in H1, H2, H3. now rewrite H1, H2, H3. }
  rewrite Hm.
  destruct (frequencyBase_between (since now 7 recentTransactions)) as (a & -> & ?).
  destruct (amountBase_between patient (since now 7 recentTransactions)) as (b & -> & ?).
  destruct (timingBase_between (since now 7 recentTransactions)) as (c & -> & ?).
  destruct (locationBase_between (since now 7 recentTransactions)) as (d & -> & ?).
  rewrite !adjust_one by lia. reflexivity.
Qed.

Lemma factors_without_stage_witness :
  timing (calculateRiskFactors Sample.now Sample.patient [Sample.morningPayment]) =
  timingBase (since Sample.now 7 [Sample.morningPayment]).
Proof.
  rewrite (factors_without_stage Sample.now Sample.patient [Sample.morningPayment]);
    [reflexivity | discriminate | discriminate | discriminate].
Defined.

End ProfilerDetails.

(** * Further properties: total score, recommendations, immediate alerts *)

Section ProfilerTotals.

Import RiskProfilingService.

Lemma inject_Z_between (lo hi z : Z) :
  lo <= z <= hi -> (inject_Z lo <= inject_Z z)%Q /\ (inject_Z z <= inject_Z hi)%Q.
Proof. intros H. rewrite <- !Zle_Qle. lia. Qed.

Lemma totalScore_ofZ (a b c d : Z) :
  calculateTotalScore
    {| frequency := ofZ a; amount := ofZ b; timing := ofZ c; location := ofZ d |} =
  ofZ (Qfloor (inject_Z a * (3 # 10) + inject_Z b * (4 # 10)
               + inject_Z c * (15 # 100) + inject_Z d * (15 # 100) + (1 # 2))).
Proof. reflexivity. Qed.

(** X18: the total score is a weighted mean: when the four factors are
    integers between [lo] and [hi], so is the total; in particular four equal
    factors give that same total. *)
Theorem totalScore_is_a_mean (lo hi a b c d : Z) :
  lo <= a <= hi -> lo <= b <= hi -> lo <= c <= hi -> lo <= d <= hi ->
  intBetween lo hi
    (calculateTotalScore
       {| frequency := ofZ a; amount := ofZ b; timing := ofZ c; location := ofZ d |}).
Proof.
  intros Ha Hb Hc Hd.
  destruct (inject_Z_between lo hi a Ha), (inject_Z_between lo hi b Hb),
           (inject_Z_between lo hi c Hc), (inject_Z_between lo hi d Hd).
  unfold calculateTotalScore. cbn [frequency amount timing location].
  unfold ofZ, mul, add.
  destruct (round_between
              (inject_Z a * (3 # 10) + inject_Z b * (4 # 10)
               + inject_Z c * (15 # 100) + inject_Z d * (15 # 100)) lo hi)
    as (z & -> & Hz); [lra | lra |].
  now apply intBetween_ofZ.
Qed.

Lemma totalScore_is_a_mean_witness :
  calculateTotalScore
    {| frequency := ofZ 55; amount := ofZ 55; timing := ofZ 55; location := ofZ 55 |} = ofZ 55.
Proof.
  destruct (totalScore_is_a_mean 55 55 55 55 55 55) as (z & -> & Hz); try lia.
  f_equal. lia.
Defined.

(** X19: raising a factor never lowers the total score. *)
Theorem totalScore_monotone (a b c d a' b' c' d' : Z) :
  a <= a' -> b <= b' -> c <= c' -> d <= d' ->
  ge (calculateTotalScore
        {| frequency := ofZ a'; amount := ofZ b'; timing := ofZ c'; location := ofZ d' |})
     (calculateTotalScore
        {| frequency := ofZ a; amount := ofZ b; timing := ofZ c; location := ofZ d |}) = true.
Proof.
  intros Ha Hb Hc Hd. rewrite !totalScore_ofZ, ge_ofZ. apply Z.leb_le.
  apply Qfloor_resp_le.
  rewrite Zle_Qle in Ha, Hb, Hc, Hd. lra.
Qed.

Lemma totalScore_monotone_witness :
  ge (calculateTotalScore
        {| frequency := ofZ 60; amount := ofZ 85; timing := ofZ 10; location := ofZ 20 |})
     (calculateTotalScore
        {| frequency := ofZ 35; amount := ofZ 85; timing := ofZ 10; location := ofZ 20 |}) = true.
Proof. apply totalScore_monotone; lia. Defined.

(** X20: there are always between two and six recommendations; and
    when some supplied transaction is flagged, the last one is the note that
    tells how many are. *)
Theorem recommendations_shape (riskLevel : string) (f : Factors)
    (recentTransactions : list Transaction) :
  (2 <= length (generateRecommendations riskLevel f recentTransactions) <= 6)%nat /\
  (forall flagged : list Transaction,
     flagged = List.filter
                 (fun t : Transaction => match isAnomaly t with Some b => b | None => false end)
                 recentTransactions ->
     flagged <> [] ->
     last (generateRecommendations riskLevel f recentTransactions) =
       Some (pretty (length flagged) +:+ "건의 이상 거래가 감지되었습니다")).
Proof.
  unfold generateRecommendations. split.
  - split_ifs; simpl; lia.
  - intros flagged -> Hne.
    destruct (List.filter _ recentTransactions) as [|t0 l0] eqn:E; [congruence|].
    cbn [length Nat.ltb Nat.leb].
    rewrite app_assoc. apply last_snoc.
Qed.

Lemma recommendations_shape_witness :
  last (generateRecommendations LOW_RISK Cases.quietFactors [Cases.flagged]) =
  Some "1건의 이상 거래가 감지되었습니다".
Proof.
  apply (proj2 (recommendations_shape LOW_RISK Cases.quietFactors [Cases.flagged])
           [Cases.flagged] eq_refl).
  discriminate.
Defined.

(** X21: without settings no immediate alert is ever due; and settings
    whose threshold is empty are read with the threshold 100000. *)
Theorem shouldSendImmediateAlert_defaults (riskScore transactionAmount : num) :
  shouldSendImmediateAlert riskScore transactionAmount None = false /\
  (forall settings : AlertSettings,
     threshold settings = EmptyString ->
     shouldSendImmediateAlert riskScore transactionAmount (Some settings) =
     immediateAlerts settings &&
     (ge riskScore (ofZ 70) || ge transactionAmount (ofZ 100000))).
Proof.
  split; [reflexivity|]. intros settings E. unfold shouldSendImmediateAlert.
  rewrite E. cbn [truthy]. destruct (immediateAlerts settings); reflexivity.
Qed.

Lemma shouldSendImmediateAlert_defaults_witness :
  shouldSendImmediateAlert (ofZ 10) (ofZ 150000)
    (Some {| threshold := EmptyString; immediateAlerts := true |}) = true.
Proof.
  rewrite (proj2 (shouldSendImmediateAlert_defaults (ofZ 10) (ofZ 150000))
             {| threshold := EmptyString; immediateAlerts := true |} eq_refl).
  reflexivity.
Defined.

End ProfilerTotals.

(** * Further properties: the amount never counts against a smaller one *)

Section AmountMonotone.

Import AnomalyDetectionService.

Lemma ge_Fin_mono (a b : Q) (limit : num) :
  (a <= b)%Q -> ge (Fin a) limit = true -> ge (Fin b) limit = true.
Proof.
  intros Hab. destruct limit as [| | |t]; simpl; try (intros H; exact H).
  rewrite !Qle_bool_iff. intros H. now apply Qle_trans with a.
Qed.

Lemma gt_Fin_mono (a b : Q) (limit : num) :
  (a <= b)%Q -> gt (Fin a) limit = true -> gt (Fin b) limit = true.
Proof.
  intros Hab. destruct limit as [| | |t]; simpl; try (intros H; exact H).
  rewrite !negb_true_iff. intros H.
  destruct (Qle_bool b t) eqn:E; [|reflexivity].
  apply Qle_bool_iff in E.
  assert (Hat : (a <= t)%Q) by now apply Qle_trans with b.
  apply Qle_bool_iff in Hat. congruence.
Qed.

Lemma gt_div_mono (a b : Q) (d : num) (k : Z) :
  (a <= b)%Q -> keepsOrder d ->
  gt (div (Fin a) d) (ofZ k) = true -> gt (div (Fin b) d) (ofZ k) = true.
Proof.
  intros Hab Hd. destruct d as [| | |v]; try (intros H; exact H).
  unfold div. destruct (Qeq_bool v 0) eqn:Ev.
  - unfold scaleInf.
    destruct (a ?= 0)%Q eqn:Ea; try discriminate.
    intros _. apply Qgt_alt in Ea.
    assert (Hb : (b > 0)%Q) by now apply Qlt_le_trans with a.
    apply Qgt_alt in Hb. now rewrite Hb.
  - apply gt_Fin_mono. simpl in Hd.
    assert (Hv : (0 < v)%Q).
    { apply Qle_lteq in Hd. destruct Hd as [Hd | Hd]; [exact Hd|].
      symmetry in Hd. apply Qeq_bool_iff in Hd. congruence. }
    unfold Qdiv. apply Qmult_le_compat_r; [exact Hab|].
    apply Qlt_le_weak. now apply Qinv_lt_0_compat.
Qed.

Lemma tier_le (c1 c2 d1 d2 : bool) (p1 p2 p0 q1 q2 q0 : Partial) :
  (c1 = true -> d1 = true) -> (c2 = true -> d2 = true) ->
  p1.1 = q1.1 -> p2.1 = q2.1 -> p0.1 = 0 -> q0.1 = 0 -> 0 <= p2.1 <= p1.1 ->
  (if c1 then p1 else if c2 then p2 else p0).1 <=
  (if d1 then q1 else if d2 then q2 else q0).1.
Proof.
  intros H1 H2 E1 E2 E0 E0' Hle.
  destruct c1, c2, d1, d2; try (specialize (H1 eq_refl)); try (specialize (H2 eq_refl));
    try discriminate; lia.
Qed.

Lemma gt_zero_keepsOrder (d : num) : gt d (ofZ 0) = true -> keepsOrder d.
Proof.
  destruct d as [| | |v]; simpl; try easy.
  rewrite negb_true_iff. intros H.
  destruct (Qlt_le_dec 0 v) as [Hlt | Hle]; [now apply Qlt_le_weak|].
  change (inject_Z 0) with 0%Q in H. apply Qle_bool_iff in Hle. congruence.
Qed.

Lemma recentAvg_keepsOrder (recentTransactions : list Transaction) :
  recentTransactions <> [] ->
  Forall (fun t : Transaction => nonNegative (parseFloat (amount t))) recentTransactions ->
  keepsOrder
    (div (sum (map (fun t : Transaction => parseFloat (amount t)) recentTransactions))
         (ofNat (length (map (fun t : Transaction => parseFloat (amount t))
                             recentTransactions)))).
Proof.
  intros Hne Hall.
  assert (Hsum : nonNegative (sum (map (fun t : Transaction => parseFloat (amount t))
                                       recentTransactions))).
  { apply sum_nonNegative. rewrite List.Forall_forall in *. intros x Hx.
    apply in_map_iff in Hx. destruct Hx as (t & <- & Ht). now apply Hall. }
  destruct Hsum as (s & -> & Hs).
  rewrite length_map. destruct recentTransactions as [|t l]; [congruence|].
  unfold ofNat, ofZ, div.
  replace (Qeq_bool (inject_Z (Z.of_nat (length (t :: l)))) 0) with false by reflexivity.
  simpl keepsOrder.
  assert (Hk : (0 < inject_Z (Z.of_nat (length (t :: l))))%Q).
  { change 0%Q with (inject_Z 0). rewrite <- Zlt_Qlt. simpl. lia. }
  unfold Qdiv. apply Qmult_le_0_compat; [exact Hs|].
  apply Qlt_le_weak. now apply Qinv_lt_0_compat.
Qed.

Lemma analyzeAmount_monotone (small large : string) (a b : Q) avgSpending recentTransactions :
  parseFloat small = Fin a -> parseFloat large = Fin b -> (a <= b)%Q ->
  Forall (fun t : Transaction => nonNegative (parseFloat (amount t))) recentTransactions ->
  (analyzeAmount small avgSpending recentTransactions).1 <=
  (analyzeAmount large avgSpending recentTransactions).1.
Proof.
  intros Ea Eb Hab Hall. unfold analyzeAmount. rewrite Ea, Eb. cbv zeta. cbn [fst].
  apply Z.add_le_mono; [apply Z.add_le_mono|].
  - destruct (gt avgSpending (ofZ 0)) eqn:Eavg; [|reflexivity].
    apply gt_zero_keepsOrder in Eavg.
    apply tier_le; try reflexivity; try (now apply gt_div_mono); simpl; lia.
  - destruct recentTransactions as [|t l] eqn:El; [reflexivity|].
    pose proof (recentAvg_keepsOrder (t :: l) ltac:(discriminate) Hall) as Hd.
    apply tier_le; try reflexivity; try (now apply gt_div_mono); simpl; lia.
  - apply tier_le; try reflexivity; try (now apply ge_Fin_mono); simpl; lia.
Qed.

(** X23: of two candidates that differ only in their amounts, the one
    with the larger amount never has the lower risk score, provided no amount
    of the history is negative or unparsable; so raising the amount of a
    flagged transaction leaves it flagged. *)
Theorem larger_amount_never_scores_lower (t1 t2 : TransactionData) (a b : Q)
    recentTransactions patientAvgSpending :
  parseFloat (amount t1) = Fin a -> parseFloat (amount t2) = Fin b -> (a <= b)%Q ->
  type t1 = type t2 -> timestamp t1 = timestamp t2 ->
  merchant t1 = merchant t2 -> description t1 = description t2 ->
  location t1 = location t2 ->
  (forall t : Transaction,
      In t recentTransactions -> nonNegative (parseFloat (amount t))) ->
  resRiskScore (detectAnomaly t1 recentTransactions patientAvgSpending) <=
  resRiskScore (detectAnomaly t2 recentTransactions patientAvgSpending) /\
  (resIsAnomaly (detectAnomaly t1 recentTransactions patientAvgSpending) = true ->
   resIsAnomaly (detectAnomaly t2 recentTransactions patientAvgSpending) = true).
Proof.
  intros Ea Eb Hab Hty Hts Hm Hd Hl Hall.
  assert (Hle : resRiskScore (detectAnomaly t1 recentTransactions patientAvgSpending) <=
                resRiskScore (detectAnomaly t2 recentTransactions patientAvgSpending)).
  { rewrite !detectAnomaly_score_eq.
    assert (Hf : analyzeFrequency t1 recentTransactions = analyzeFrequency t2 recentTransactions)
      by (unfold analyzeFrequency; now rewrite Hty, Hts).
    rewrite Hf, Hts, Hm, Hd, Hl.
    pose proof (analyzeAmount_monotone (amount t1) (amount t2) a b patientAvgSpending
                  recentTransactions Ea Eb Hab
                  (proj2 (List.Forall_forall _ _) Hall)).
    lia. }
  split; [exact Hle|].
  rewrite !detectAnomaly_flag_eq, !Z.leb_le. lia.
Qed.

Lemma larger_amount_never_scores_lower_witness :
  resRiskScore (detectAnomaly Cases.halfWithdrawal [] (ofZ 100000)) <=
  resRiskScore (detectAnomaly Sample.nightWithdrawal [] (ofZ 100000)).
Proof.
  apply (larger_amount_never_scores_lower Cases.halfWithdrawal Sample.nightWithdrawal
           (600000 # 1) (1200000 # 1) [] (ofZ 100000)); try reflexivity.
  - discriminate.
  - intros t [].
Defined.

End AmountMonotone.

(** * Further properties: immediate alerts *)

Section ImmediateAlerts.

Import RiskProfilingService.

(** X22: an immediate alert that is due stays due when the risk score
    or the amount rises, whatever the settings. *)
Theorem shouldSendImmediateAlert_monotone (r r' a a' : Q) (settings : option AlertSettings) :
  (r <= r')%Q -> (a <= a')%Q ->
  shouldSendImmediateAlert (Fin r) (Fin a) settings = true ->
  shouldSendImmediateAlert (Fin r') (Fin a') settings = true.
Proof.
  intros Hr Ha. unfold shouldSendImmediateAlert.
  destruct settings as [s|]; [|intros H; exact H].
  destruct (negb (immediateAlerts s)); [intros H; exact H|].
  rewrite !orb_true_iff. intros [H | H].
  - left. now apply ge_Fin_mono with r.
  - right. now apply ge_Fin_mono with a.
Qed.

Lemma shouldSendImmediateAlert_monotone_witness :
  shouldSendImmediateAlert (Fin 80) (Fin 20000) (Some Sample.settingsOn) = true.
Proof.
  apply (shouldSendImmediateAlert_monotone 70 80 10000 20000 (Some Sample.settingsOn));
    [discriminate | discriminate | reflexivity].
Defined.

End ImmediateAlerts.

(** * Further properties: the activity feed *)

Section Feed.

Import ActivityFeed.

Variable formatAmount : string -> string.
Variable now : Z.

Lemma insertById_perm (a : Activity) (l : list Activity) :
  Permutation (insertById a l) (a :: l).
Proof.
  induction l as [|b l IH]; simpl; [reflexivity|].
  destruct (activityId a <=? activityId b); [reflexivity|].
  rewrite IH. apply perm_swap.
Qed.

Lemma sortById_perm (l : list Activity) : Permutation (sortById l) l.
Proof.
  induction l as [|a l IH]; simpl; [reflexivity|].
  rewrite insertById_perm. now constructor.
Qed.

Lemma insertById_sorted (a : Activity) (l : list Activity) :
  StronglySorted byId l -> StronglySorted byId (insertById a l).
Proof.
  induction l as [|b l IH]; intros Hs; simpl.
  - repeat constructor.
  - inversion Hs as [|? ? Hl Hb]; subst.
    destruct (Z.leb_spec (activityId a) (activityId b)).
    + constructor; [exact Hs|]. constructor; [exact H|].
      eapply Forall_impl; [exact Hb|]. unfold byId. intros c Hc. lia.
    + constructor; [now apply IH|].
      rewrite insertById_perm. constructor; [unfold byId; lia | exact Hb].
Qed.

Lemma sortById_sorted (l : list Activity) : StronglySorted byId (sortById l).
Proof.
  induction l as [|a l IH]; simpl; [constructor | now apply insertById_sorted].
Qed.

(** X24: the feed holds at most ten activities, in ascending order of
    their keys, and they are those of the lowest keys: the activities built
    from the transactions of the store are the feed together with a rest
    whose keys are all at least those of the feed. *)
Theorem activityFeed_lowest_keys (answers : list (Patient * list Transaction)) :
  length (activityFeed formatAmount now answers) =
    Nat.min 10 (length (collect formatAmount now answers)) /\
  StronglySorted byId (activityFeed formatAmount now answers) /\
  exists rest : list Activity,
    Permutation (activityFeed formatAmount now answers ++ rest)
                (collect formatAmount now answers) /\
    forall a b : Activity,
      In a (activityFeed formatAmount now answers) -> In b rest ->
      activityId a <= activityId b.
Proof.
  unfold activityFeed. set (all := collect formatAmount now answers).
  pose proof (sortById_sorted all) as Hs. pose proof (sortById_perm all) as Hp.
  split; [|split].
  - rewrite length_take. now rewrite (Permutation_length Hp).
  - rewrite <- (take_drop 10 (sortById all)) in Hs.
    now apply StronglySorted_app_1_l in Hs.
  - exists (drop 10 (sortById all)). split.
    + now rewrite take_drop.
    + intros a b Ha Hb. rewrite <- (take_drop 10 (sortById all)) in Hs.
      apply list_elem_of_In in Ha, Hb.
      exact (StronglySorted_app_1_elem_of byId _ _ a b Hs Ha Hb).
Qed.


End Feed.

Section FeedExamples.

Import ActivityFeed.


End FeedExamples.

(** * Further properties: the generated demonstration rows *)

Section Seed.

Import SeedData.

Lemma floorTimes_range (u : Q) (n base : Z) :
  unitDraw u -> 0 < n -> base <= floorTimes u n base <= base + n - 1.
Proof.
  intros [H0 H1] Hn. unfold floorTimes.
  assert (Hq : (0 < inject_Z n)%Q) by (change 0%Q with (inject_Z 0); now rewrite <- Zlt_Qlt).
  assert (Hlo : (inject_Z 0 <= u * inject_Z n)%Q).
  { change (inject_Z 0) with 0%Q. apply Qmult_le_0_compat; [exact H0 | now apply Qlt_le_weak]. }
  assert (Hhi : (u * inject_Z n < inject_Z n)%Q).
  { assert (Hm : (u * inject_Z n < 1 * inject_Z n)%Q) by now apply Qmult_lt_compat_r.
    now rewrite Qmult_1_l in Hm. }
  apply Qfloor_resp_le in Hlo. rewrite Qfloor_Z in Hlo.
  assert (Qfloor (u * inject_Z n) < n).
  { apply Z.lt_nge. intros Hge. rewrite Zle_Qle in Hge.
    pose proof (Qfloor_le (u * inject_Z n)).
    apply (Qlt_irrefl (inject_Z n)).
    eapply Qle_lt_trans; [exact Hge|]. eapply Qle_lt_trans; [exact H|exact Hhi]. }
  lia.
Qed.

(** X26: every generated transaction has an amount from 3,000 to
    999,999 and an inserted risk score from 5 to 100, and a generated
    transaction that is flagged has a score of at least 40. *)
Theorem seeded_characteristics_range (riskLevel : string) (hour : Z) (d : Draws) :
  unitDraw (uAmount d) -> unitDraw (uScore d) ->
  3000 <= seedAmount (characteristics riskLevel hour d) <= 999999 /\
  5 <= seedRiskScore (characteristics riskLevel hour d) <= 100 /\
  (seedIsAnomaly (characteristics riskLevel hour d) = true ->
   40 <= seedRiskScore (characteristics riskLevel hour d)).
Proof.
  intros Ha Hs. unfold characteristics.
  pose proof (fun n base => floorTimes_range (uAmount d) n base Ha) as HA.
  pose proof (fun n base => floorTimes_range (uScore d) n base Hs) as HS.
  destruct (String.eqb riskLevel HIGH_RISK); [|destruct (String.eqb riskLevel MEDIUM_RISK)];
    destruct (negb _);
    match goal with
    | |- context [floorTimes (uAmount d) ?n ?b] =>
        pose proof (HA n b ltac:(lia))
    end;
    match goal with
    | |- context [floorTimes (uScore d) ?n ?b] =>
        pose proof (HS n b ltac:(lia))
    end;
    destruct ((23 <=? hour) || (hour <=? 6));
    cbn [seedAmount seedRiskScore seedIsAnomaly];
    try match goal with
        | |- context [50 <=? ?x] => destruct (Z.leb_spec 50 x)
        end;
    repeat split; intros; try discriminate; lia.
Qed.

Lemma seeded_characteristics_range_witness :
  40 <= seedRiskScore
          (characteristics HIGH_RISK 2
             {| uBranch := 1 # 10; uAmount := 1 # 2; uScore := 9 # 10 |}).
Proof.
  apply (seeded_characteristics_range HIGH_RISK 2
           {| uBranch := 1 # 10; uAmount := 1 # 2; uScore := 9 # 10 |});
    first [reflexivity | split; [discriminate | reflexivity]].
Defined.

(** X27: the type of a generated alert is that of the alert the handler
    writes for the same score except from 50 to 59 and from 70 to 79, where
    the generated alert is one tier lower. *)
Theorem seeded_alert_type_vs_handler (score : Z) :
  (alertTypeOf score = Routes.alertTypeOf score <->
   score < 50 \/ 60 <= score < 70 \/ 80 <= score) /\
  (50 <= score < 60 ->
   alertTypeOf score = MEDIUM_RISK /\ Routes.alertTypeOf score = HIGH_RISK) /\
  (70 <= score < 80 ->
   alertTypeOf score = HIGH_RISK /\ Routes.alertTypeOf score = URGENT).
Proof.
  unfold alertTypeOf, Routes.alertTypeOf.
  destruct (Z.leb_spec 80 score); destruct (Z.leb_spec 70 score);
    destruct (Z.leb_spec 60 score); destruct (Z.leb_spec 50 score);
    repeat split; intros; try lia; try reflexivity; try discriminate.
Qed.

Lemma seeded_alert_type_vs_handler_witness :
  alertTypeOf 75 = HIGH_RISK /\ Routes.alertTypeOf 75 = URGENT.
Proof. apply (seeded_alert_type_vs_handler 75). lia. Defined.

End Seed.

(** * Further properties: the recomputed scores in closed form *)

Section RecomputedClosedForm.

Import AnomalyDetectionService.

Lemma round_min_fraction (p : Z) (q : positive) :
  round (min (Fin (p # q)) (ofZ 100)) = ofZ (Z.min ((2 * p + Zpos q) / (2 * Zpos q)) 100).
Proof.
  unfold min, ge, ofZ, Qle_bool. simpl Qnum. simpl Qden.
  destruct (Z.leb_spec (100 * Zpos q) (p * 1)).
  - change (round (Fin (inject_Z 100))) with (Fin (inject_Z 100)).
    rewrite Z.min_r; [reflexivity|].
    apply Z.div_le_lower_bound; lia.
  - unfold round. rewrite Qfloor_half. rewrite Z.min_l; [reflexivity|].
    apply Z.lt_succ_r. apply Z.div_lt_upper_bound; lia.
Qed.

(** X28: the recomputed frequency score is 20/7 of the number of
    transactions of the trailing seven days, rounded, and 100 from 35
    transactions on; the recomputed location score is 15 for each distinct
    location of those days, and 100 from seven locations on. *)
Theorem recomputed_scores_closed_form (now patientId : Z)
    (recentTransactions : list Transaction) :
  rfFrequencyScore (calculateRiskFactors now patientId recentTransactions) =
    ofZ (Z.min ((40 * Z.of_nat (length (RiskProfilingService.since now 7 recentTransactions)) + 7)
                / 14) 100) /\
  rfLocationScore (calculateRiskFactors now patientId recentTransactions) =
    ofZ (Z.min (15 * Z.of_nat
                       (distinctCount
                          (filterTruthy
                             (map (fun t : Transaction => location t)
                                  (RiskProfilingService.since now 7 recentTransactions)))))
               100) /\
  ((35 <= length (RiskProfilingService.since now 7 recentTransactions))%nat ->
   rfFrequencyScore (calculateRiskFactors now patientId recentTransactions) = ofZ 100).
Proof.
  unfold calculateRiskFactors, RiskProfilingService.since.
  cbn [rfFrequencyScore rfLocationScore].
  set (week := List.filter _ recentTransactions).
  set (places := distinctCount _).
  assert (Hf : round (min (mul (div (ofNat (length week)) (ofZ 7)) (ofZ 20)) (ofZ 100)) =
               ofZ (Z.min ((40 * Z.of_nat (length week) + 7) / 14) 100)).
  { unfold ofNat, ofZ at 1 2 3, div.
    replace (Qeq_bool (inject_Z 7) 0) with false by reflexivity.
    unfold mul, Qdiv, Qmult, Qinv, inject_Z. simpl Qnum. simpl Qden.
    rewrite round_min_fraction. do 2 f_equal.
    change (Z.pos (1 * 7 * 1)) with 7. f_equal; lia. }
  split; [exact Hf|]. split.
  - unfold ofNat, ofZ at 1 2, mul, Qmult, inject_Z. simpl Qnum. simpl Qden.
    rewrite round_min_fraction. do 2 f_equal.
    change (Z.pos 1) with 1. Z.div_mod_to_equations. lia.
  - intros Hn. rewrite Hf. f_equal. apply Z.min_r.
    apply Z.div_le_lower_bound; lia.
Qed.

Lemma recomputed_scores_closed_form_witness :
  rfFrequencyScore (calculateRiskFactors Sample.now 1 (repeat Cases.grocery 35)) = ofZ 100.
Proof.
  apply (recomputed_scores_closed_form Sample.now 1 (repeat Cases.grocery 35)).
  apply Nat.leb_le. vm_compute. reflexivity.
Defined.

End RecomputedClosedForm.
